(** * Jinja2Cpp: the value model ([value.h]) and the template driver
      ([template_impl.h])

    A shallow embedding of the host-facing [Value] variant, of the
    [GenericMap] / [UserCallableParams] accessors, and of
    [TemplateImpl::Load] / [TemplateImpl::Render] with their error
    conversion, followed by the properties the specification states
    about them. *)

From Stdlib Require Import ZArith NArith List String.
From Stdlib Require Import Floats.PrimFloat.
From stdpp Require Import base option list gmap strings.

Import ListNotations.
Local Open Scope string_scope.

Set Implicit Arguments.
Set Warnings "-register-all".

(* ===================================================================== *)
(** * Part I. [include/jinja2cpp/value.h]                                *)
(* ===================================================================== *)

(** ** Text types *)

(** [wchar_t] code units; a [std::wstring] is a sequence of them. *)
Definition wchar_t := N.
Definition wstring := list wchar_t.

(** ** [EmptyValue] *)

(** [struct EmptyValue] has no data members. *)
Inductive EmptyValue : Type := mkEmptyValue.

(** [T{}]: value-initialisation of the target type of
    [EmptyValue::operator T()]. *)
Class ValueInit (T : Type) : Type := value_init : T.
Global Hint Mode ValueInit ! : typeclass_instances.

#[global] Instance bool_value_init : ValueInit bool := false.
#[global] Instance string_value_init : ValueInit string := EmptyString.
#[global] Instance wstring_value_init : ValueInit wstring := [].
#[global] Instance int_value_init : ValueInit Z := 0%Z.
#[global] Instance size_t_value_init : ValueInit N := 0%N.
#[global] Instance double_value_init : ValueInit float := PrimFloat.zero.
#[global] Instance vector_value_init (A : Type) : ValueInit (list A) := [].

(** [template<typename T> operator T() const { return T{}; }] *)
Definition EmptyValue_to (T : Type) `{ValueInit T} (e : EmptyValue) : T :=
  value_init.
Arguments EmptyValue_to T {_} e.

(** ** Unchecked accesses *)

(** Outcome of a member function that dereferences a pointer without a
    null check or indexes a vector without a bounds check. *)
Inductive cxx (A : Type) : Type :=
| WellDefined (a : A)
| UndefinedBehaviour.
Arguments WellDefined {A} _.
Arguments UndefinedBehaviour {A}.

(** [p->member]: undefined when [p] is the null pointer ([None]). *)
Definition arrow {A B : Type} (p : option A) (member : A -> B) : cxx B :=
  match p with
  | Some object => WellDefined (member object)
  | None => UndefinedBehaviour
  end.

(** ** Host capabilities *)

Module MapItemAccessor.
(** [struct MapItemAccessor]: the four pure virtual methods a host
    dictionary implements. *)
Record t (V : Type) : Type := mk
  { GetSize : N;
    HasValue : string -> bool;
    GetValueByName : string -> V;
    GetKeys : list string }.
Arguments mk {V} _ _ _ _.
End MapItemAccessor.

(** [class GenericMap]: its only member is
    [std::function<const MapItemAccessor* ()> m_accessor].  An empty
    function object is [None]; a non-empty one is a provider that hands
    out a pointer to an accessor or the null pointer ([None]), taken to be
    the same pointer at every call. *)
Record GenericMap (V : Type) : Type := mkGenericMap
  { m_accessor : option (unit -> option (MapItemAccessor.t V)) }.
Arguments mkGenericMap {V} _.

Module ListItemAccessor.
(** Modelled from the spec: [generic_list.h] is not part of the sources
    at hand; the GenericList capability offers a length (a size, or
    unknown) and the element at an index. *)
Record t (V : Type) : Type := mk
  { GetSize : option N;
    GetItemByIndex : N -> V }.
Arguments mk {V} _ _.
End ListItemAccessor.

(** Modelled from the spec: a host-backed lazy list reached through its
    capability, which may be missing. *)
Record GenericList (V : Type) : Type := mkGenericList
  { m_list_accessor : option (unit -> ListItemAccessor.t V) }.
Arguments mkGenericList {V} _.

(** ** Callable descriptors *)

(** [struct ArgInfo] *)
Record ArgInfo (V : Type) : Type := mkArgInfo
  { paramName : string;
    isMandatory : bool;
    defValue : V }.
Arguments mkArgInfo {V} _ _ _.
Arguments paramName {V} _.
Arguments isMandatory {V} _.
Arguments defValue {V} _.

(** [struct UserCallable].  [Fn] is the type of the type-erased
    [std::function<Value (const UserCallableParams&)>] objects. *)
Record UserCallable (Fn V : Type) : Type := mkUserCallable
  { callable : Fn;
    argsInfo : list (ArgInfo V) }.
Arguments mkUserCallable {Fn V} _ _.

(** ** [class Value] *)

(** [Value::ValueData], the thirteen alternatives in declaration order.
    [RecWrapper<T>] is an owning indirection and is transparent here. *)
Inductive Value (Fn : Type) : Type :=
| VEmpty (e : EmptyValue)
| VBool (b : bool)
| VString (s : string)
| VWString (s : wstring)
| VStringView (s : string)
| VWStringView (s : wstring)
| VInt64 (i : Z)
| VDouble (d : float)
| VValuesList (l : list (Value Fn))
| VValuesMap (m : gmap string (Value Fn))
| VGenericList (g : GenericList (Value Fn))
| VGenericMap (g : GenericMap (Value Fn))
| VUserCallable (c : UserCallable Fn (Value Fn)).

Arguments VEmpty {Fn} _.
Arguments VBool {Fn} _.
Arguments VString {Fn} _.
Arguments VWString {Fn} _.
Arguments VStringView {Fn} _.
Arguments VWStringView {Fn} _.
Arguments VInt64 {Fn} _.
Arguments VDouble {Fn} _.
Arguments VValuesList {Fn} _.
Arguments VValuesMap {Fn} _.
Arguments VGenericList {Fn} _.
Arguments VGenericMap {Fn} _.
Arguments VUserCallable {Fn} _.

Abbreviation ValuesList Fn := (list (Value Fn)).
Abbreviation ValuesMap Fn := (gmap string (Value Fn)).

(** Outcome of [nonstd::get<T>]: the alternative, or the
    [bad_variant_access] exception. *)
Inductive variant_access (A : Type) : Type :=
| Got (a : A)
| BadVariantAccess.
Arguments Got {A} _.
Arguments BadVariantAccess {A}.

Section ValueMethods.
Variable Fn : Type.

(** [Value::Value() = default]: the variant holds its first
    alternative. *)
Definition Value_default : Value Fn := VEmpty mkEmptyValue.

(** [Value(int val)] *)
Definition Value_of_int (val : Z) : Value Fn := VInt64 val.

(** [Value(const ValuesList&)], [Value(const ValuesMap&)],
    [Value(const UserCallable&)] *)
Definition Value_of_ValuesList (l : ValuesList Fn) : Value Fn :=
  VValuesList l.
Definition Value_of_ValuesMap (m : ValuesMap Fn) : Value Fn :=
  VValuesMap m.
Definition Value_of_UserCallable (c : UserCallable Fn (Value Fn)) : Value Fn :=
  VUserCallable c.

(** [nonstd::get_if<T>(&m_data)], one per alternative that the class
    queries; [None] is the null pointer. *)
Definition get_if_EmptyValue (v : Value Fn) : option EmptyValue :=
  match v with VEmpty e => Some e | _ => None end.
Definition get_if_string (v : Value Fn) : option string :=
  match v with VString s => Some s | _ => None end.
Definition get_if_wstring (v : Value Fn) : option wstring :=
  match v with VWString s => Some s | _ => None end.
Definition get_if_ValuesList (v : Value Fn) : option (ValuesList Fn) :=
  match v with VValuesList l => Some l | _ => None end.
Definition get_if_ValuesMap (v : Value Fn) : option (ValuesMap Fn) :=
  match v with VValuesMap m => Some m | _ => None end.
Definition get_if_GenericList (v : Value Fn) : option (GenericList (Value Fn)) :=
  match v with VGenericList g => Some g | _ => None end.
Definition get_if_GenericMap (v : Value Fn) : option (GenericMap (Value Fn)) :=
  match v with VGenericMap g => Some g | _ => None end.

(** [p != nullptr] *)
Definition not_null {A : Type} (p : option A) : bool :=
  match p with Some _ => true | None => false end.

(** [nonstd::get<T>(m_data)]: throws when [T] is not the active
    alternative. *)
Definition get_of {A : Type} (p : option A) : variant_access A :=
  match p with Some a => Got a | None => BadVariantAccess end.

Definition isString (v : Value Fn) : bool := not_null (get_if_string v).
Definition asString (v : Value Fn) : variant_access string :=
  get_of (get_if_string v).

Definition isWString (v : Value Fn) : bool := not_null (get_if_wstring v).
Definition asWString (v : Value Fn) : variant_access wstring :=
  get_of (get_if_wstring v).

Definition isList (v : Value Fn) : bool :=
  not_null (get_if_ValuesList v) || not_null (get_if_GenericList v).
Definition asList (v : Value Fn) : variant_access (ValuesList Fn) :=
  get_of (get_if_ValuesList v).

Definition isMap (v : Value Fn) : bool :=
  not_null (get_if_ValuesMap v) || not_null (get_if_GenericMap v).
Definition asMap (v : Value Fn) : variant_access (ValuesMap Fn) :=
  get_of (get_if_ValuesMap v).

Definition isEmpty (v : Value Fn) : bool := not_null (get_if_EmptyValue v).

(** *** [GenericMap] methods *)

Definition GenericMap_default : GenericMap (Value Fn) := mkGenericMap None.

(** [m_accessor ? m_accessor()->HasValue(name) : false] *)
Definition GenericMap_HasValue (g : GenericMap (Value Fn)) (name : string)
  : cxx bool :=
  match m_accessor g with
  | Some provider =>
      arrow (provider tt) (fun accessor => MapItemAccessor.HasValue accessor name)
  | None => WellDefined false
  end.

(** [m_accessor ? m_accessor()->GetValueByName(name) : Value()] *)
Definition GenericMap_GetValueByName (g : GenericMap (Value Fn)) (name : string)
  : cxx (Value Fn) :=
  match m_accessor g with
  | Some provider =>
      arrow (provider tt)
        (fun accessor => MapItemAccessor.GetValueByName accessor name)
  | None => WellDefined Value_default
  end.

(** [m_accessor ? m_accessor()->GetSize() : 0] *)
Definition GenericMap_GetSize (g : GenericMap (Value Fn)) : cxx N :=
  match m_accessor g with
  | Some provider => arrow (provider tt) (@MapItemAccessor.GetSize (Value Fn))
  | None => WellDefined 0%N
  end.

(** [m_accessor ? m_accessor()->GetKeys() : std::vector<std::string>()] *)
Definition GenericMap_GetKeys (g : GenericMap (Value Fn)) : cxx (list string) :=
  match m_accessor g with
  | Some provider => arrow (provider tt) (@MapItemAccessor.GetKeys (Value Fn))
  | None => WellDefined []
  end.

(** The documented contract of [MapItemAccessor::GetValueByName] at one
    name: the empty [Value] if the item is absent. *)
Definition accessor_empty_if_absent (g : GenericMap (Value Fn)) (name : string) : Prop :=
  forall provider accessor,
    m_accessor g = Some provider ->
    provider tt = Some accessor ->
    MapItemAccessor.HasValue accessor name = false ->
    MapItemAccessor.GetValueByName accessor name = Value_default.

(** *** [struct UserCallableParams] *)

Record UserCallableParams : Type := mkUserCallableParams
  { args : ValuesMap Fn;
    extraPosArgs : Value Fn;
    extraKwArgs : Value Fn;
    context : Value Fn;
    paramsParsed : bool }.

(** [Value operator[](const std::string& paramName) const] *)
Definition UserCallableParams_index (p : UserCallableParams) (paramName : string)
  : Value Fn :=
  match args p !! paramName with
  | None => Value_default
  | Some second => second
  end.

End ValueMethods.

Arguments Value_default {Fn}.
Arguments GenericMap_default {Fn}.

(** ** The callable protocol *)

(** Modelled from the spec: the call operator of the function object that
    a callable holds, an invocation function taking a call-params bundle
    and returning a Value; its target is host code. *)
Class Invocation (Fn : Type) : Type :=
  invoke : Fn -> UserCallableParams Fn -> Value Fn.
Global Hint Mode Invocation ! : typeclass_instances.

(** [UserCallableParams] as its default member initialisers leave it. *)
Definition UserCallableParams_default {Fn : Type} : UserCallableParams Fn :=
  mkUserCallableParams ∅ Value_default Value_default Value_default false.

(** Modelled from the spec: how a call ends, with the result of the
    callable or with MissingArgument. *)
Inductive CallResult (Fn : Type) : Type :=
| CallReturns (result : Value Fn)
| CallMissingArgument.
Arguments CallReturns {Fn} _.
Arguments CallMissingArgument {Fn}.

(** Modelled from the spec: step 1 of the callable protocol, which the
    sources at hand do not contain.  The descriptors are walked in order;
    a descriptor takes the next positional argument if one remains, else
    the named argument of its name, which is removed from [K], else fails
    when it is mandatory ([None]), else takes its default.  The result is
    the map of bound arguments with the positional and the named
    arguments that are left over. *)
Fixpoint bind_arguments {Fn : Type} (descriptors : list (ArgInfo (Value Fn)))
  (P : list (Value Fn)) (K : ValuesMap Fn) (bound : ValuesMap Fn)
  : option (ValuesMap Fn * list (Value Fn) * ValuesMap Fn) :=
  match descriptors with
  | [] => Some (bound, P, K)
  | descriptor :: rest =>
      match P with
      | positional :: P' =>
          bind_arguments rest P' K (<[paramName descriptor := positional]> bound)
      | [] =>
          match K !! paramName descriptor with
          | Some named =>
              bind_arguments rest [] (delete (paramName descriptor) K)
                (<[paramName descriptor := named]> bound)
          | None =>
              if isMandatory descriptor
              then None
              else bind_arguments rest [] K
                     (<[paramName descriptor := defValue descriptor]> bound)
          end
      end
  end.

(** Modelled from the spec: step 2 of the callable protocol.  The bundle
    carries the bound arguments as a name-to-Value map, the positional
    arguments left over as a list, the named arguments left over as a
    map, and the handle to the current scope. *)
Definition assemble_call_params {Fn : Type} (descriptors : list (ArgInfo (Value Fn)))
  (P : list (Value Fn)) (K : ValuesMap Fn) (scope : Value Fn)
  : option (UserCallableParams Fn) :=
  match bind_arguments descriptors P K ∅ with
  | None => None
  | Some (matched, extraPos, extraKw) =>
      Some
        (mkUserCallableParams matched (VValuesList extraPos) (VValuesMap extraKw)
           scope (paramsParsed (@UserCallableParams_default Fn)))
  end.

(** Modelled from the spec: step 3 of the callable protocol, the
    invocation function applied to the assembled bundle. *)
Definition UserCallable_invoke {Fn : Type} `{!Invocation Fn}
  (uc : UserCallable Fn (Value Fn)) (P : list (Value Fn)) (K : ValuesMap Fn)
  (scope : Value Fn) : CallResult Fn :=
  match assemble_call_params (argsInfo uc) P K scope with
  | None => CallMissingArgument
  | Some bundle => CallReturns (invoke (callable uc) bundle)
  end.

(* ===================================================================== *)
(** * Part II. [src/template_impl.h]                                      *)
(* ===================================================================== *)

(** ** Character widths *)

(** The two instantiations of [template<typename CharT>]: [char] and
    [wchar_t]. *)
Inductive CharT : Type := Narrow | Wide.

(** [std::basic_string<CharT>] *)
Definition basic_string (c : CharT) : Type :=
  match c with
  | Narrow => string
  | Wide => wstring
  end.

Definition basic_string_empty (c : CharT) : basic_string c :=
  match c with
  | Narrow => EmptyString
  | Wide => []
  end.

(** [std::basic_string<CharT>::append] *)
Definition basic_string_append (c : CharT)
  : basic_string c -> basic_string c -> basic_string c :=
  match c with
  | Narrow => String.append
  | Wide => @app wchar_t
  end.

(** ** Error payload *)

(** Modelled from the spec: [error_info.h] is not part of the sources at
    hand; the error kinds are those the specification lists. *)
Inductive ErrorCode : Type :=
| TemplateNotParsed
| UnexpectedException
| InvalidTemplateName
| TemplateNotFound
| SyntaxError (reason : string)
| UndefinedValue
| UnknownFilter
| UnknownTest
| InvalidOperation
| MissingArgument
| LoaderError
| ExtendsAfterContent
| BlockRedefined.

(** Modelled from the spec: source location [{file, line, column}]. *)
Record SourceLocation : Type := mkSourceLocation
  { fileName : string;
    line : N;
    col : N }.

Module ErrorInfoTpl.
Section WithFn.
Variable Fn : Type.

(** Modelled from the spec: the payload of [ErrorInfoTpl<CharT>] is
    [{code; source location; location description; extra params}]. *)
Record Data (c : CharT) : Type := mkData
  { code : ErrorCode;
    srcLoc : SourceLocation;
    locationDescr : basic_string c;
    extraParams : list (Value Fn) }.

(** [ErrorInfoTpl<CharT>]: constructed from its [Data]. *)
Record t (c : CharT) : Type := mk
  { m_errorData : Data c }.

Definition GetCode (c : CharT) (e : t c) : ErrorCode :=
  code (m_errorData e).
Definition GetErrorLocation (c : CharT) (e : t c) : SourceLocation :=
  srcLoc (m_errorData e).
Definition GetLocationDescr (c : CharT) (e : t c) : basic_string c :=
  locationDescr (m_errorData e).
Definition GetExtraParams (c : CharT) (e : t c) : list (Value Fn) :=
  extraParams (m_errorData e).
End WithFn.
Arguments mkData {Fn} c _ _ _ _.
Arguments mk {Fn c} _.
End ErrorInfoTpl.

(** ** Objects that travel through [throw] *)

Section Thrown.
Variable Fn : Type.

(** What a [throw] reaching [TemplateImpl::Render] may carry: an engine
    error of either width, an object of a class derived from
    [std::exception] (with its [what()] text), or an object of any other
    type (such as [throw 42;] in a host callable), identified by a
    number. *)
Inductive Thrown : Type :=
| ThrowErrorInfo (error : ErrorInfoTpl.t Fn Narrow)
| ThrowErrorInfoW (error : ErrorInfoTpl.t Fn Wide)
| ThrowStdException (what : string)
| ThrowOther (obj : Z).

(** [throw ErrorInfoTpl<CharT>(...)] *)
Definition throw_ErrorInfoTpl (c : CharT) : ErrorInfoTpl.t Fn c -> Thrown :=
  match c with
  | Narrow => ThrowErrorInfo
  | Wide => ThrowErrorInfoW
  end.
End Thrown.

Arguments throw_ErrorInfoTpl {Fn} c _.
Arguments ThrowStdException {Fn} _.
Arguments ThrowOther {Fn} _.

(** ** Computations over the caller's output string *)

(** A computation that may append to the string the stream writer refers
    to and either completes with a result or leaves by an exception. *)
Definition Exec (Fn : Type) (c : CharT) (A : Type) : Type :=
  basic_string c -> (A + Thrown Fn) * basic_string c.

Definition Exec_ret {Fn c A} (a : A) : Exec Fn c A :=
  fun os => (inl a, os).

Definition Exec_throw {Fn c A} (ex : Thrown Fn) : Exec Fn c A :=
  fun os => (inr ex, os).

Definition Exec_bind {Fn c A B} (m : Exec Fn c A) (k : A -> Exec Fn c B)
  : Exec Fn c B :=
  fun os =>
    match m os with
    | (inl a, os') => k a os'
    | (inr ex, os') => (inr ex, os')
    end.

Declare Scope exec_scope.
Delimit Scope exec_scope with exec.
Notation "m ;;; k" := (Exec_bind m (fun _ => k))
  (at level 100, right associativity) : exec_scope.

(** ** Environment, renderer handle, template state *)

(** Modelled from the spec: the autoescape rule of the settings. *)
Inductive Autoescape : Type := AutoescapeOff | AutoescapeHtml | AutoescapeByExtension.

(** Modelled from the spec: [Settings] is declared outside the sources at
    hand; its fields are those the specification names. *)
Record Settings : Type := mkSettings
  { autoescape : Autoescape;
    trim_blocks : bool;
    lstrip_blocks : bool;
    keep_trailing_newline : bool;
    extensions : list string }.

#[global] Instance Settings_value_init : ValueInit Settings :=
  mkSettings AutoescapeOff false false false [].

(** Modelled from the spec: [template_env.h] is not part of the sources at
    hand; the environment holds the settings and the global values that
    [ApplyGlobals] hands to its callback. *)
Record TemplateEnv (Fn : Type) : Type := mkTemplateEnv
  { GetSettings : Settings;
    m_globalValues : ValuesMap Fn }.

(** [RendererPtr]: a shared pointer to the renderer tree, possibly null. *)
Abbreviation RendererPtr RendererBase := (option RendererBase).

(** The data members of [TemplateImpl<CharT>]. *)
Record TemplateImpl (Fn RendererBase : Type) (c : CharT) : Type := mkTemplateImpl
  { m_env : option (TemplateEnv Fn);
    m_settings : Settings;
    m_template : basic_string c;
    m_templateName : string;
    m_renderer : RendererPtr RendererBase }.

(** [InternalValueMap] *)
Abbreviation InternalValueMap InternalValue := (gmap string InternalValue).

(** [RendererCallback]: holds the pointer to its host template. *)
Record RendererCallback (Fn RendererBase : Type) (c : CharT) : Type :=
  mkRendererCallback
  { m_host : TemplateImpl Fn RendererBase c }.

(** [RenderContext(intParams, extParams, &callback)]: the class is
    declared outside the sources at hand, so a context is kept as the
    three arguments it is constructed from; what its member functions
    make of them is not fixed here. *)
Record RenderContext (Fn InternalValue RendererBase : Type) (c : CharT) : Type :=
  mkRenderContext
  { constructed_intParams : InternalValueMap InternalValue;
    constructed_extParams : InternalValueMap InternalValue;
    constructed_callback : RendererCallback Fn RendererBase c }.

(** The calls a renderer makes on [OutStream::StreamWriter]. *)
Inductive WriterCall (InternalValue : Type) (c : CharT) : Type :=
| CallWriteBuffer (buffer : basic_string c)
| CallWriteValue (val : InternalValue).
Arguments CallWriteBuffer {InternalValue c} _.
Arguments CallWriteValue {InternalValue c} _.

(** What one run of the renderer tree does to its stream: the writer calls
    it makes, in order, and then either a normal return ([None]) or the
    object it throws. *)
Abbreviation RenderRun Fn InternalValue c :=
  (list (WriterCall InternalValue c) * option (Thrown Fn))%type.

(** [nonstd::expected<RendererPtr, std::vector<ErrorInfoTpl<CharT>>>] *)
Abbreviation ParseResult Fn RendererBase c :=
  (RendererPtr RendererBase + list (ErrorInfoTpl.t Fn c))%type.

Unset Implicit Arguments.

(** The translation units [template_impl.h] relies on but which are not
    part of the sources at hand, taken as parameters.  The value
    conversions are taken to complete normally; exceptions enter through
    the run of the renderer tree, which is where host callables are
    invoked. *)
Class Collaborators (Fn InternalValue RendererBase : Type) : Type :=
  { (** [ConvertString<std::basic_string<CharT1>>(const std::basic_string<CharT2>&)] *)
    ConvertString : forall c1 c2 : CharT, basic_string c2 -> basic_string c1;
    (** [Apply<visitors::ValueRenderer<CharT>>(val, os)] *)
    ValueRenderer : forall c : CharT, InternalValue -> basic_string c -> basic_string c;
    (** [visit(visitors::InputValueConvertor(false, true), value)] *)
    InputValueConvertor : Value Fn -> option InternalValue;
    (** [ValueRef(static_cast<const Value&>(value))] *)
    ValueRef : Value Fn -> InternalValue;
    (** [SetupGlobals(InternalValueMap& globalParams)] *)
    SetupGlobals : InternalValueMap InternalValue -> InternalValueMap InternalValue;
    (** [TemplateParser<CharT>(&tpl, settings, env, tplName).Parse()] *)
    TemplateParser_Parse :
      forall c : CharT, basic_string c -> Settings -> option (TemplateEnv Fn) -> string ->
                        ParseResult Fn RendererBase c;
    (** [renderer->Render(outStream, context)] *)
    RendererBase_Render :
      forall c : CharT, RendererBase -> RenderContext Fn InternalValue RendererBase c ->
                        RenderRun Fn InternalValue c;
    (** [context.GetCurrentScope()] *)
    RenderContext_GetCurrentScope :
      forall c : CharT, RenderContext Fn InternalValue RendererBase c ->
                        InternalValueMap InternalValue }.

(** How a call of [Render] ends: by [return], or by an exception that no
    handler of its [try] block matches. *)
Inductive RenderExit (Fn : Type) (c : CharT) : Type :=
| Returns (result : option (ErrorInfoTpl.t Fn c))
| Propagates (ex : Thrown Fn).
Arguments Returns {Fn c} _.
Arguments Propagates {Fn c} _.

Section TemplateImplMethods.
Context {Fn InternalValue RendererBase : Type}.
Context `{!Collaborators Fn InternalValue RendererBase}.

Local Open Scope exec_scope.

(** ** [GenericStreamWriter<CharT>] *)

(** [m_os.append(reinterpret_cast<const CharT*>(ptr), length)]: the
    buffer is the [length] characters at [ptr]. *)
Definition GenericStreamWriter_WriteBuffer (c : CharT) (buffer : basic_string c)
  : Exec Fn c unit :=
  fun m_os => (inl tt, basic_string_append c m_os buffer).

(** [Apply<visitors::ValueRenderer<CharT>>(val, m_os)] *)
Definition GenericStreamWriter_WriteValue (c : CharT) (val : InternalValue)
  : Exec Fn c unit :=
  fun m_os => (inl tt, ValueRenderer c val m_os).

Definition GenericStreamWriter_call (c : CharT) (call : WriterCall InternalValue c)
  : Exec Fn c unit :=
  match call with
  | CallWriteBuffer buffer => GenericStreamWriter_WriteBuffer c buffer
  | CallWriteValue val => GenericStreamWriter_WriteValue c val
  end.

(** The writer calls of a run, performed in order on the caller's
    string. *)
Fixpoint GenericStreamWriter_calls (c : CharT) (calls : list (WriterCall InternalValue c))
  : Exec Fn c unit :=
  match calls with
  | [] => Exec_ret tt
  | call :: rest =>
      GenericStreamWriter_call c call ;;; GenericStreamWriter_calls c rest
  end.

(** The caller's string after one writer call. *)
Definition writer_step (c : CharT) (m_os : basic_string c)
  (call : WriterCall InternalValue c) : basic_string c :=
  snd (GenericStreamWriter_call c call m_os).

(** [m_renderer->Render(outStream, context)] with [outStream] bound to a
    [GenericStreamWriter<CharT>(os)]. *)
Definition Renderer_Render_on (c : CharT) (renderer : RendererBase)
  (context : RenderContext Fn InternalValue RendererBase c) : Exec Fn c unit :=
  let run := RendererBase_Render c renderer context in
  GenericStreamWriter_calls c (fst run) ;;;
  match snd run with
  | None => Exec_ret tt
  | Some ex => Exec_throw ex
  end.

(** ** [ErrorConverter] *)

(** The primary partial specialisation,
    [ErrorConverter<ErrorInfoTpl<CharT1>, ErrorInfoTpl<CharT2>>::Convert]. *)
Definition ErrorConverter_Convert_across (c1 c2 : CharT)
  (srcError : ErrorInfoTpl.t Fn c2) : ErrorInfoTpl.t Fn c1 :=
  ErrorInfoTpl.mk
    (ErrorInfoTpl.mkData c1
       (ErrorInfoTpl.GetCode srcError)
       (ErrorInfoTpl.GetErrorLocation srcError)
       (ConvertString c1 c2 (ErrorInfoTpl.GetLocationDescr srcError))
       (ErrorInfoTpl.GetExtraParams srcError)).

(** [ErrorConverter<To, From>::Convert]: overload resolution picks the
    more specialised [ErrorConverter<ErrorInfoTpl<CharT>,
    ErrorInfoTpl<CharT>>], which returns its argument, when both widths
    agree. *)
Definition ErrorConverter_Convert (c1 c2 : CharT)
  : ErrorInfoTpl.t Fn c2 -> ErrorInfoTpl.t Fn c1 :=
  match c1, c2 with
  | Narrow, Narrow => fun srcError => srcError
  | Wide, Wide => fun srcError => srcError
  | Narrow, Wide => ErrorConverter_Convert_across Narrow Wide
  | Wide, Narrow => ErrorConverter_Convert_across Wide Narrow
  end.

(** ** [TemplateImpl<CharT>] *)

(** [explicit TemplateImpl(TemplateEnv* env)] *)
Definition TemplateImpl_new (c : CharT) (env : option (TemplateEnv Fn))
  : TemplateImpl Fn RendererBase c :=
  {| m_env := env;
     m_settings := match env with
                   | Some e => GetSettings e
                   | None => value_init
                   end;
     m_template := basic_string_empty c;
     m_templateName := EmptyString;
     m_renderer := None |}.

(** [std::vector::operator[]] at index 0. *)
Definition vector_front {A : Type} (v : list A) : cxx A :=
  match v with
  | x :: _ => WellDefined x
  | [] => UndefinedBehaviour
  end.

(** [tplName.empty()] *)
Definition string_empty (s : string) : bool :=
  match s with
  | EmptyString => true
  | String _ _ => false
  end.

(** [boost::optional<ErrorInfoTpl<CharT>> Load(tpl, tplName)]: the value
    returned, and the object afterwards. *)
Definition Load (c : CharT) (this : TemplateImpl Fn RendererBase c)
  (tpl : basic_string c) (tplName : string)
  : cxx (option (ErrorInfoTpl.t Fn c)) * TemplateImpl Fn RendererBase c :=
  let m_templateName' :=
    if string_empty tplName then "noname.j2tpl" else tplName in
  let this1 :=
    {| m_env := m_env this;
       m_settings := m_settings this;
       m_template := tpl;
       m_templateName := m_templateName';
       m_renderer := m_renderer this |} in
  let parseResult :=
    TemplateParser_Parse c (m_template this1) (m_settings this1) (m_env this1)
      (m_templateName this1) in
  match parseResult with
  | inr error =>
      match vector_front error with
      | WellDefined e => (WellDefined (Some e), this1)
      | UndefinedBehaviour => (UndefinedBehaviour, this1)
      end
  | inl renderer =>
      (WellDefined None,
       {| m_env := m_env this1;
          m_settings := m_settings this1;
          m_template := m_template this1;
          m_templateName := m_templateName this1;
          m_renderer := renderer |})
  end.

(** The object after a series of [Load] calls, oldest first. *)
Fixpoint Load_each (c : CharT) (this : TemplateImpl Fn RendererBase c)
  (sources : list (basic_string c * string)) : TemplateImpl Fn RendererBase c :=
  match sources with
  | [] => this
  | (tpl, tplName) :: rest => Load_each c (snd (Load c this tpl tplName)) rest
  end.

(** Whether each [Load] of a series reported a failure. *)
Fixpoint Load_each_failed (c : CharT) (this : TemplateImpl Fn RendererBase c)
  (sources : list (basic_string c * string)) : bool :=
  match sources with
  | [] => true
  | (tpl, tplName) :: rest =>
      match fst (Load c this tpl tplName) with
      | WellDefined None => false
      | _ => Load_each_failed c (snd (Load c this tpl tplName)) rest
      end
  end.

(** The lambda [convertFn]: every entry of [params] is converted and
    stored under its key in [intParams]. *)
Definition convertFn (params : ValuesMap Fn)
  (intParams : InternalValueMap InternalValue) : InternalValueMap InternalValue :=
  map_fold
    (fun first second acc =>
       match InputValueConvertor second with
       | None => <[first := ValueRef second]> acc
       | Some newParam => <[first := newParam]> acc
       end)
    intParams params.

(** [m_env->ApplyGlobals(convertFn)] *)
Definition ApplyGlobals (env : TemplateEnv Fn)
  (fn : ValuesMap Fn -> InternalValueMap InternalValue -> InternalValueMap InternalValue)
  (intParams : InternalValueMap InternalValue) : InternalValueMap InternalValue :=
  fn (m_globalValues env) intParams.

(** [InitRenderContext]: returns the current scope of the context and
    changes nothing. *)
Definition InitRenderContext (c : CharT)
  (context : RenderContext Fn InternalValue RendererBase c)
  : InternalValueMap InternalValue :=
  RenderContext_GetCurrentScope c context.

(** The context [Render] builds before it calls the renderer (the
    statements of its [try] block up to [InitRenderContext]). *)
Definition Render_context (c : CharT) (this : TemplateImpl Fn RendererBase c)
  (params : ValuesMap Fn) : RenderContext Fn InternalValue RendererBase c :=
  let extParams : InternalValueMap InternalValue := ∅ in
  let intParams : InternalValueMap InternalValue := ∅ in
  let '(extParams, intParams) :=
    match m_env this with
    | Some env =>
        let intParams := ApplyGlobals env convertFn intParams in
        (* std::swap(extParams, intParams) *)
        (intParams, extParams)
    | None => (extParams, intParams)
    end in
  let intParams := convertFn params intParams in
  let extParams := SetupGlobals extParams in
  let callback := mkRendererCallback this in
  mkRenderContext intParams extParams callback.

(** The [try] block of [Render]. *)
Definition Render_try (c : CharT) (this : TemplateImpl Fn RendererBase c)
  (renderer : RendererBase) (params : ValuesMap Fn) : Exec Fn c unit :=
  let context := Render_context c this params in
  let _ := InitRenderContext c context in
  Renderer_Render_on c renderer context.

(** [boost::optional<ErrorInfoTpl<CharT>> Render(os, params)]: how the
    call ends, and the caller's string [os] afterwards. *)
Definition Render (c : CharT) (this : TemplateImpl Fn RendererBase c)
  (os : basic_string c) (params : ValuesMap Fn)
  : RenderExit Fn c * basic_string c :=
  let normalResult : option (ErrorInfoTpl.t Fn c) := None in
  match m_renderer this with
  | None =>
      (Returns
         (Some
            (ErrorInfoTpl.mk
               (ErrorInfoTpl.mkData c TemplateNotParsed
                  (mkSourceLocation "<unknown file>" 1 1)
                  (basic_string_empty c) []))),
       os)
  | Some renderer =>
      match Render_try c this renderer params os with
      | (inl _, os') => (Returns normalResult, os')
      | (inr (ThrowErrorInfo error), os') =>
          (Returns (Some (ErrorConverter_Convert c Narrow error)), os')
      | (inr (ThrowErrorInfoW error), os') =>
          (Returns (Some (ErrorConverter_Convert c Wide error)), os')
      | (inr (ThrowStdException what), os') =>
          (Returns
             (Some
                (ErrorInfoTpl.mk
                   (ErrorInfoTpl.mkData c UnexpectedException
                      (mkSourceLocation (m_templateName this) 1 1)
                      (basic_string_empty c) [VString what]))),
           os')
      | (inr (ThrowOther obj), os') => (Propagates (ThrowOther obj), os')
      end
  end.

(** [void ThrowRuntimeError(ErrorCode code, ValuesList extraParams)]: the
    object it throws. *)
Definition ThrowRuntimeError (c : CharT) (this : TemplateImpl Fn RendererBase c)
  (code : ErrorCode) (extraParams : ValuesList Fn) : Thrown Fn :=
  throw_ErrorInfoTpl c
    (ErrorInfoTpl.mk
       (ErrorInfoTpl.mkData c code
          (mkSourceLocation (m_templateName this) 1 1)
          (basic_string_empty c) extraParams)).

End TemplateImplMethods.

(** ** Members of [template_impl.h] beside [Load] and [Render] *)

(** [std::basic_string<CharT>] texts joined in order. *)
Definition basic_string_concat (c : CharT) (texts : list (basic_string c))
  : basic_string c :=
  fold_right (basic_string_append c) (basic_string_empty c) texts.

(** [TargetString]: a string of either width, as [GetAsTargetString]
    builds it from a [std::basic_string<CharT>] and [GetStreamOnString]
    reads it back with [get<string_t>()]. *)
Inductive TargetString : Type :=
| TargetNarrow (s : string)
| TargetWide (s : wstring).

(** [TargetString(std::move(os))] *)
Definition TargetString_of (c : CharT) : basic_string c -> TargetString :=
  match c with
  | Narrow => TargetNarrow
  | Wide => TargetWide
  end.

(** [TplLoadResultType]: nothing, or a template or an error of either
    width. *)
Inductive TplLoadResultType (Fn RendererBase : Type) : Type :=
| TplEmptyValue (e : EmptyValue)
| TplOrErrorNarrow
    (r : TemplateImpl Fn RendererBase Narrow + ErrorInfoTpl.t Fn Narrow)
| TplOrErrorWide
    (r : TemplateImpl Fn RendererBase Wide + ErrorInfoTpl.t Fn Wide).
Arguments TplEmptyValue {Fn RendererBase} _.
Arguments TplOrErrorNarrow {Fn RendererBase} _.
Arguments TplOrErrorWide {Fn RendererBase} _.

(** [TplLoadResultType(TplOrError(...))]: the alternative is chosen by the
    width of the template. *)
Definition TplLoadResultType_of {Fn RendererBase : Type} (c : CharT)
  : TemplateImpl Fn RendererBase c + ErrorInfoTpl.t Fn c ->
    TplLoadResultType Fn RendererBase :=
  match c with
  | Narrow => TplOrErrorNarrow
  | Wide => TplOrErrorWide
  end.

(** What the template-loading members use from translation units that are
    not part of the sources at hand. *)
Class LoaderCollaborators (Fn InternalValue RendererBase : Type) : Type :=
  { (** [env->LoadTemplate(fileName)], a template standing for its [m_impl] *)
    TemplateEnv_LoadTemplate :
      TemplateEnv Fn -> string ->
      TemplateImpl Fn RendererBase Narrow + ErrorInfoTpl.t Fn Narrow;
    (** [env->LoadTemplateW(fileName)] *)
    TemplateEnv_LoadTemplateW :
      TemplateEnv Fn -> string ->
      TemplateImpl Fn RendererBase Wide + ErrorInfoTpl.t Fn Wide;
    (** [GetAsSameString(std::string(), fileName)] *)
    GetAsSameString : InternalValue -> option string;
    (** [IntValue2Value(fileName)] *)
    IntValue2Value : InternalValue -> Value Fn }.

Section TemplateImplRest.
Context {Fn InternalValue RendererBase : Type}.
Context `{!Collaborators Fn InternalValue RendererBase}.
Context `{!LoaderCollaborators Fn InternalValue RendererBase}.

Local Open Scope exec_scope.

(** What the body of the loop in [convertFn] stores for one entry. *)
Definition convert_param (second : Value Fn) : InternalValue :=
  match InputValueConvertor second with
  | None => ValueRef second
  | Some newParam => newParam
  end.

(** [TemplateLoader<char>::Load] and [TemplateLoader<wchar_t>::Load] *)
Definition TemplateLoader_Load (c : CharT) (fileName : string) (env : TemplateEnv Fn)
  : TemplateImpl Fn RendererBase c + ErrorInfoTpl.t Fn c :=
  match c with
  | Narrow => TemplateEnv_LoadTemplate env fileName
  | Wide => TemplateEnv_LoadTemplateW env fileName
  end.

(** [TplLoadResultType LoadTemplate(const std::string& fileName)] *)
Definition LoadTemplate (c : CharT) (this : TemplateImpl Fn RendererBase c)
  (fileName : string) : TplLoadResultType Fn RendererBase :=
  match m_env this with
  | None => TplEmptyValue mkEmptyValue
  | Some env =>
      match TemplateLoader_Load c fileName env with
      | inr unexpected => TplLoadResultType_of c (inr unexpected)
      | inl m_impl => TplLoadResultType_of c (inl m_impl)
      end
  end.

(** [TplLoadResultType LoadTemplate(const InternalValue& fileName)] *)
Definition LoadTemplate_value (c : CharT) (this : TemplateImpl Fn RendererBase c)
  (fileName : InternalValue) : TplLoadResultType Fn RendererBase :=
  match GetAsSameString fileName with
  | None =>
      TplLoadResultType_of c
        (inr
           (ErrorInfoTpl.mk
              (ErrorInfoTpl.mkData c InvalidTemplateName
                 (mkSourceLocation (m_templateName this) 1 1)
                 (basic_string_empty c) [IntValue2Value fileName])))
  | Some name => LoadTemplate c this name
  end.

(** ** [StringStreamWriter<CharT>] *)

(** [m_targetStr->append(reinterpret_cast<const CharT*>(ptr), length)] *)
Definition StringStreamWriter_WriteBuffer (c : CharT) (buffer : basic_string c)
  : Exec Fn c unit :=
  fun m_targetStr => (inl tt, basic_string_append c m_targetStr buffer).

(** [Apply<visitors::ValueRenderer<CharT>>(val, *m_targetStr)] *)
Definition StringStreamWriter_WriteValue (c : CharT) (val : InternalValue)
  : Exec Fn c unit :=
  fun m_targetStr => (inl tt, ValueRenderer c val m_targetStr).

Definition StringStreamWriter_call (c : CharT) (call : WriterCall InternalValue c)
  : Exec Fn c unit :=
  match call with
  | CallWriteBuffer buffer => StringStreamWriter_WriteBuffer c buffer
  | CallWriteValue val => StringStreamWriter_WriteValue c val
  end.

Fixpoint StringStreamWriter_calls (c : CharT) (calls : list (WriterCall InternalValue c))
  : Exec Fn c unit :=
  match calls with
  | [] => Exec_ret tt
  | call :: rest =>
      StringStreamWriter_call c call ;;; StringStreamWriter_calls c rest
  end.

(** ** [RendererCallback] *)

(** [TargetString GetAsTargetString(const InternalValue& val)] *)
Definition RendererCallback_GetAsTargetString (c : CharT)
  (callback : RendererCallback Fn RendererBase c) (val : InternalValue)
  : TargetString :=
  let os := basic_string_empty c in
  let os := ValueRenderer c val os in
  TargetString_of c os.

(** [OutStream GetStreamOnString(TargetString& str)] followed by the
    given calls on the stream it returns: [str] afterwards.  The first
    statement, [str = string_t()], replaces whatever [str] held. *)
Definition RendererCallback_GetStreamOnString (c : CharT)
  (callback : RendererCallback Fn RendererBase c) (str : TargetString)
  (calls : list (WriterCall InternalValue c)) : TargetString :=
  let str := basic_string_empty c in
  TargetString_of c (snd (StringStreamWriter_calls c calls str)).

(** [RendererCallback::LoadTemplate] (both overloads) and
    [RendererCallback::ThrowRuntimeError] forward to the host template. *)
Definition RendererCallback_LoadTemplate (c : CharT)
  (callback : RendererCallback Fn RendererBase c) (fileName : string)
  : TplLoadResultType Fn RendererBase :=
  LoadTemplate c (m_host callback) fileName.

Definition RendererCallback_LoadTemplate_value (c : CharT)
  (callback : RendererCallback Fn RendererBase c) (fileName : InternalValue)
  : TplLoadResultType Fn RendererBase :=
  LoadTemplate_value c (m_host callback) fileName.

Definition RendererCallback_ThrowRuntimeError (c : CharT)
  (callback : RendererCallback Fn RendererBase c) (code : ErrorCode)
  (extraParams : ValuesList Fn) : Thrown Fn :=
  ThrowRuntimeError c (m_host callback) code extraParams.

End TemplateImplRest.

(* ===================================================================== *)
(** * Part III. Concrete hosts used to exercise the model                 *)
(* ===================================================================== *)

(** A host without callables of its own: the function-object type is
    [unit]. *)
Definition NoFn : Type := unit.

(** A host dictionary with the single entry [answer -> 42], which answers
    lookups of any other name with the empty value. *)
Definition answer_accessor : MapItemAccessor.t (Value NoFn) :=
  MapItemAccessor.mk 1%N
    (fun name => String.eqb name "answer")
    (fun name => if String.eqb name "answer" then VInt64 42%Z else Value_default)
    ["answer"].

Definition answer_map : GenericMap (Value NoFn) :=
  mkGenericMap (Some (fun _ => Some answer_accessor)).

(** A map whose provider hands out the null pointer. *)
Definition null_provider_map : GenericMap (Value NoFn) :=
  mkGenericMap (Some (fun _ => None)).

(** A call-params bundle with one matched argument. *)
Definition demo_params : UserCallableParams NoFn :=
  mkUserCallableParams (<[ "str1" := VString "Hello" ]> ∅)
    (VValuesList []) (VValuesMap ∅) Value_default true.

(** A host function object that returns its argument [a]. *)
#[global] Instance demo_invoke : Invocation NoFn :=
  fun _ params => UserCallableParams_index params "a".

(** A callable with the descriptors [a] (mandatory) and [b] (default 7). *)
Definition demo_callable : UserCallable NoFn (Value NoFn) :=
  mkUserCallable tt [mkArgInfo "a" true Value_default;
                     mkArgInfo "b" false (VInt64 7%Z)].

(** The arguments of the call [f(1, 2, 3, x=4)]. *)
Definition demo_positional : list (Value NoFn) :=
  [VInt64 1%Z; VInt64 2%Z; VInt64 3%Z].

Definition demo_named : ValuesMap NoFn := <[ "x" := VInt64 4%Z ]> ∅.

(** Transcoding between the widths, one code unit per character. *)
Definition narrow_to_wide (s : string) : wstring :=
  List.map Ascii.N_of_ascii (list_ascii_of_string s).

Definition wide_to_narrow (w : wstring) : string :=
  string_of_list_ascii (List.map Ascii.ascii_of_N w).

Definition demo_ConvertString (c1 c2 : CharT) : basic_string c2 -> basic_string c1 :=
  match c1, c2 with
  | Narrow, Narrow => fun s => s
  | Wide, Wide => fun s => s
  | Narrow, Wide => wide_to_narrow
  | Wide, Narrow => narrow_to_wide
  end.

(** A renderer given by what it does: one run for each width. *)
Record ScriptedRenderer : Type := mkScriptedRenderer
  { narrow_run : RenderRun NoFn (Value NoFn) Narrow;
    wide_run : RenderRun NoFn (Value NoFn) Wide }.

(** Text values are appended in their own width; nothing else is
    printed. *)
Definition demo_ValueRenderer (c : CharT) (val : Value NoFn)
  : basic_string c -> basic_string c :=
  match c return basic_string c -> basic_string c with
  | Narrow => fun os : string =>
      match val with VString s => String.append os s | _ => os end
  | Wide => fun os : wstring =>
      match val with VWString s => (os ++ s)%list | _ => os end
  end.

Definition demo_syntax_error (c : CharT) (reason : string) (tplName : string)
  (l : N) : ErrorInfoTpl.t NoFn c :=
  ErrorInfoTpl.mk
    (ErrorInfoTpl.mkData c (SyntaxError reason) (mkSourceLocation tplName l 1)
       (basic_string_empty c) []).

(** A parser that rejects the empty template with two failures and turns
    any other text into a renderer that writes it out. *)
Definition demo_Parse (c : CharT) (tpl : basic_string c) (settings : Settings)
  (env : option (TemplateEnv NoFn)) (tplName : string)
  : ParseResult NoFn ScriptedRenderer c :=
  let failure :=
    inr [demo_syntax_error c "empty template" tplName 1;
         demo_syntax_error c "missing end" tplName 2] in
  match c return basic_string c -> ParseResult NoFn ScriptedRenderer c -> _ with
  | Narrow => fun tpl failure =>
      match tpl with
      | EmptyString => failure
      | _ => inl (Some (mkScriptedRenderer ([CallWriteBuffer tpl], None) ([], None)))
      end
  | Wide => fun tpl failure =>
      match tpl with
      | [] => failure
      | _ => inl (Some (mkScriptedRenderer ([], None) ([CallWriteBuffer tpl], None)))
      end
  end tpl failure.

#[global] Instance demo_host : Collaborators NoFn (Value NoFn) ScriptedRenderer :=
  {| ConvertString := demo_ConvertString;
     ValueRenderer := demo_ValueRenderer;
     InputValueConvertor := fun v => Some v;
     ValueRef := fun v => v;
     SetupGlobals := fun globalParams => globalParams;
     TemplateParser_Parse := demo_Parse;
     RendererBase_Render := fun c renderer _ =>
       match c with
       | Narrow => narrow_run renderer
       | Wide => wide_run renderer
       end;
     RenderContext_GetCurrentScope := fun c context =>
       constructed_intParams context |}.

(** A renderer that writes a greeting and a value, and then lets a
    [std::runtime_error] escape. *)
Definition greet_then_fail : ScriptedRenderer :=
  mkScriptedRenderer
    ([CallWriteBuffer ("Hello " : basic_string Narrow); CallWriteValue (VString "World")],
     Some (ThrowStdException "boom"))
    ([], Some (ThrowStdException "boom")).

(** A renderer whose host callable executes [throw 42;] after the
    greeting has been written. *)
Definition greet_then_throw_int : ScriptedRenderer :=
  mkScriptedRenderer
    ([CallWriteBuffer ("Hello " : basic_string Narrow)], Some (ThrowOther 42%Z))
    ([], Some (ThrowOther 42%Z)).

(** A narrow template object holding the given renderer. *)
Definition demo_template (renderer : RendererPtr ScriptedRenderer)
  : TemplateImpl NoFn ScriptedRenderer Narrow :=
  mkTemplateImpl Narrow None value_init
    ("{{ greeting }}" : basic_string Narrow) "hello.j2tpl" renderer.

(** A wide error payload. *)
Definition demo_wide_error : ErrorInfoTpl.t NoFn Wide :=
  ErrorInfoTpl.mk
    (ErrorInfoTpl.mkData Wide UndefinedValue (mkSourceLocation "a.j2tpl" 3 7)
       [104%N; 105%N] [VString "x"; VInt64 5%Z]).

(** A narrow engine error located at the head of [hello.j2tpl]. *)
Definition demo_narrow_error : ErrorInfoTpl.t NoFn Narrow :=
  ErrorInfoTpl.mk
    (ErrorInfoTpl.mkData Narrow UndefinedValue (mkSourceLocation "hello.j2tpl" 1 1)
       ("" : basic_string Narrow) [VString "x"]).

(** A renderer that writes one character and then raises that engine
    error. *)
Definition fail_with_engine_error : ScriptedRenderer :=
  mkScriptedRenderer
    ([CallWriteBuffer ("a" : basic_string Narrow)], Some (ThrowErrorInfo demo_narrow_error))
    ([], Some (ThrowErrorInfo demo_narrow_error)).

(** A renderer that raises the wide engine error. *)
Definition fail_with_wide_error : ScriptedRenderer :=
  mkScriptedRenderer
    ([], Some (ThrowErrorInfoW demo_wide_error))
    ([], Some (ThrowErrorInfoW demo_wide_error)).

(** A renderer that writes two buffers before a late failure. *)
Definition greet_twice_then_fail : ScriptedRenderer :=
  mkScriptedRenderer
    ([CallWriteBuffer ("Hello " : basic_string Narrow);
      CallWriteBuffer ("World" : basic_string Narrow)],
     Some (ThrowStdException "late"))
    ([], None).

(** A loader that knows the narrow template [base] only, with internal
    values that are strings exactly when they hold a narrow string. *)
#[global] Instance demo_loader : LoaderCollaborators NoFn (Value NoFn) ScriptedRenderer :=
  {| TemplateEnv_LoadTemplate := fun _ fileName =>
       if String.eqb fileName "base"
       then inl (demo_template (Some greet_then_fail))
       else inr (ErrorInfoTpl.mk
                   (ErrorInfoTpl.mkData Narrow TemplateNotFound
                      (mkSourceLocation fileName 1 1) ("" : basic_string Narrow) []));
     TemplateEnv_LoadTemplateW := fun _ fileName =>
       inr (ErrorInfoTpl.mk
              (ErrorInfoTpl.mkData Wide TemplateNotFound
                 (mkSourceLocation fileName 1 1) ([] : basic_string Wide) []));
     GetAsSameString := fun fileName =>
       match fileName with
       | VString name => Some name
       | _ => None
       end;
     IntValue2Value := fun fileName => fileName |}.

(* ===================================================================== *)
(** * Part IV. Properties of the value model                              *)
(* ===================================================================== *)

Section ValueFacts.
Variable Fn : Type.

Lemma isEmpty_default : isEmpty (@Value_default Fn) = true.
Proof. reflexivity. Qed.

Lemma isEmpty_inv (v : Value Fn) : isEmpty v = true -> v = Value_default.
Proof. destruct v as [[]| | | | | | | | | | | |]; simpl; intros E; try discriminate E. reflexivity. Qed.

Lemma asList_Got_iff (v : Value Fn) (l : ValuesList Fn) :
  asList v = Got l <-> v = VValuesList l.
Proof.
  unfold asList, get_of. split.
  - destruct v; simpl; intros E; try discriminate E. congruence.
  - intros ->. reflexivity.
Qed.

Lemma asMap_Got_iff (v : Value Fn) (m : ValuesMap Fn) :
  asMap v = Got m <-> v = VValuesMap m.
Proof.
  unfold asMap, get_of. split.
  - destruct v; simpl; intros E; try discriminate E. congruence.
  - intros ->. reflexivity.
Qed.

Lemma asList_throws_iff (v : Value Fn) :
  asList v = BadVariantAccess <-> ~ (exists l, v = VValuesList l).
Proof.
  split.
  - intros E [l ->]. discriminate E.
  - intros H. destruct v; try reflexivity. exfalso. apply H. eauto.
Qed.

Lemma asMap_throws_iff (v : Value Fn) :
  asMap v = BadVariantAccess <-> ~ (exists m, v = VValuesMap m).
Proof.
  split.
  - intros E [m ->]. discriminate E.
  - intros H. destruct v; try reflexivity. exfalso. apply H. eauto.
Qed.

Lemma isList_iff (v : Value Fn) :
  isList v = true <-> (exists l, v = VValuesList l) \/ (exists g, v = VGenericList g).
Proof.
  split.
  - destruct v; simpl; try discriminate; eauto.
  - intros [[l ->] | [g ->]]; reflexivity.
Qed.

Lemma isMap_iff (v : Value Fn) :
  isMap v = true <-> (exists m, v = VValuesMap m) \/ (exists g, v = VGenericMap g).
Proof.
  split.
  - destruct v; simpl; try discriminate; eauto.
  - intros [[m ->] | [g ->]]; reflexivity.
Qed.

(** C7. The empty value converts to the value-initialised object of
    whatever type it is converted to; in particular to [false] as a
    boolean, to the empty string as a string and to zero as an integer. *)
Theorem EmptyValue_coerces_to_default :
  (forall (T : Type) (H : ValueInit T) (e : EmptyValue),
      EmptyValue_to T e = value_init)
  /\ EmptyValue_to bool mkEmptyValue = false
  /\ EmptyValue_to string mkEmptyValue = ""
  /\ EmptyValue_to wstring mkEmptyValue = []
  /\ EmptyValue_to Z mkEmptyValue = 0%Z.
Proof. repeat split. Qed.

(** C9. A default-constructed [GenericMap] answers every query with the
    neutral result: no name is present, the size is 0, there are no keys,
    and every lookup returns the empty value. *)
Theorem GenericMap_default_neutral (name : string) :
  GenericMap_HasValue (@GenericMap_default Fn) name = WellDefined false
  /\ GenericMap_GetSize (@GenericMap_default Fn) = WellDefined 0%N
  /\ GenericMap_GetKeys (@GenericMap_default Fn) = WellDefined []
  /\ GenericMap_GetValueByName (@GenericMap_default Fn) name
     = WellDefined Value_default
  /\ (exists v : Value Fn,
         GenericMap_GetValueByName (@GenericMap_default Fn) name = WellDefined v
         /\ isEmpty v = true).
Proof. repeat split. exists Value_default. split; reflexivity. Qed.

(** C10. [isList] holds exactly for the [ValuesList] and [GenericList]
    alternatives and [isMap] exactly for [ValuesMap] and [GenericMap];
    [asList] / [asMap] return the contained container exactly for the
    plain [ValuesList] / [ValuesMap] alternative and throw for every
    other one, the generic alternative included although its is-test
    holds. *)
Theorem isList_isMap_wider_than_asList_asMap (v : Value Fn) :
  (isList v = true <-> (exists l, v = VValuesList l) \/ (exists g, v = VGenericList g))
  /\ (isMap v = true <-> (exists m, v = VValuesMap m) \/ (exists g, v = VGenericMap g))
  /\ (forall l, asList v = Got l <-> v = VValuesList l)
  /\ (forall m, asMap v = Got m <-> v = VValuesMap m)
  /\ (asList v = BadVariantAccess <-> ~ (exists l, v = VValuesList l))
  /\ (asMap v = BadVariantAccess <-> ~ (exists m, v = VValuesMap m))
  /\ (forall g : GenericList (Value Fn),
         isList (VGenericList g) = true /\ asList (VGenericList g) = BadVariantAccess)
  /\ (forall g : GenericMap (Value Fn),
         isMap (VGenericMap g) = true /\ asMap (VGenericMap g) = BadVariantAccess).
Proof.
  split; [apply isList_iff|].
  split; [apply isMap_iff|].
  split; [intros l; apply asList_Got_iff|].
  split; [intros m; apply asMap_Got_iff|].
  split; [apply asList_throws_iff|].
  split; [apply asMap_throws_iff|].
  split; intros g; split; reflexivity.
Qed.

(** C4. Looking up a name that the args map of a call-params bundle does
    not hold returns the empty value.  [GetValueByName] on a [GenericMap]
    for which [HasValue] reports the name absent returns the empty value,
    the accessor (when there is one) keeping the contract documented for
    [MapItemAccessor::GetValueByName]: the empty [Value] if the item is
    absent.  The method forwards to the accessor: for any name it returns
    the accessor's answer, and the empty value when no accessor is set. *)
Theorem absent_entry_reads_Empty
  (p : UserCallableParams Fn) (g : GenericMap (Value Fn)) (name : string) :
  args p !! name = None ->
  GenericMap_HasValue g name = WellDefined false ->
  accessor_empty_if_absent g name ->
  UserCallableParams_index p name = Value_default
  /\ GenericMap_GetValueByName g name = WellDefined Value_default
  /\ (forall provider accessor other,
         m_accessor g = Some provider ->
         provider tt = Some accessor ->
         GenericMap_GetValueByName g other
         = WellDefined (MapItemAccessor.GetValueByName accessor other))
  /\ (m_accessor g = None ->
      forall other, GenericMap_GetValueByName g other = WellDefined Value_default).
Proof.
  intros Hargs Habsent Hcontract. split; [|split; [|split]].
  - unfold UserCallableParams_index. rewrite Hargs. reflexivity.
  - unfold GenericMap_GetValueByName, GenericMap_HasValue in *.
    destruct (m_accessor g) as [provider|] eqn:E; [|reflexivity].
    destruct (provider tt) as [accessor|] eqn:Ep; simpl in *; [|discriminate Habsent].
    f_equal. apply (Hcontract provider accessor E Ep). congruence.
  - intros provider accessor other E Ep.
    unfold GenericMap_GetValueByName. rewrite E, Ep. reflexivity.
  - intros E other. unfold GenericMap_GetValueByName. rewrite E. reflexivity.
Qed.

End ValueFacts.

Section CallProtocolFacts.
Context {Fn : Type} `{!Invocation Fn}.

(** What binding leaves behind, and where every bound argument comes
    from. *)
Lemma bind_arguments_spec (descriptors : list (ArgInfo (Value Fn))) :
  forall (P : list (Value Fn)) (K bound matched : ValuesMap Fn)
         (extraPos : list (Value Fn)) (extraKw : ValuesMap Fn),
    bind_arguments descriptors P K bound = Some (matched, extraPos, extraKw) ->
    extraPos = drop (length descriptors) P
    /\ (forall name v, extraKw !! name = Some v -> K !! name = Some v)
    /\ (forall name,
           is_Some (matched !! name)
           <-> is_Some (bound !! name) \/ In name (List.map paramName descriptors))
    /\ (forall name v,
           matched !! name = Some v ->
           bound !! name = Some v \/ In v P \/ K !! name = Some v
           \/ exists d, In d descriptors /\ paramName d = name
                        /\ isMandatory d = false /\ defValue d = v)
    /\ (forall name,
           ~ In name (List.map paramName descriptors) ->
           matched !! name = bound !! name).
Proof.
  induction descriptors as [|d rest IH]; intros P K bound matched extraPos extraKw H.
  - simpl in H. injection H as <- <- <-. rewrite drop_0.
    repeat split; try tauto.
    intros [Hb|[]]; exact Hb.
  - simpl in H. destruct P as [|positional P'].
    + destruct (K !! paramName d) as [named|] eqn:HK.
      * apply IH in H as (HP & HKw & Hdom & Hsrc & Hkeep). clear IH.
        split; [rewrite HP, !drop_nil; reflexivity|]. split; [|split; [|split]].
        -- intros name v Hv. apply HKw in Hv.
           apply lookup_delete_Some in Hv as [_ Hv]. exact Hv.
        -- intros name. rewrite Hdom. simpl.
           destruct (decide (paramName d = name)) as [<-|Hne].
           ++ rewrite lookup_insert_eq. split; intros _; [right; left; reflexivity|].
              left. eauto.
           ++ rewrite lookup_insert_ne by exact Hne. tauto.
        -- intros name v Hv. apply Hsrc in Hv as [Hv|[Hv|[Hv|Hv]]].
           ++ destruct (decide (paramName d = name)) as [<-|Hne].
              ** rewrite lookup_insert_eq in Hv. injection Hv as <-.
                 right. right. left. exact HK.
              ** rewrite lookup_insert_ne in Hv by exact Hne. left. exact Hv.
           ++ destruct Hv.
           ++ apply lookup_delete_Some in Hv as [_ Hv]. right. right. left. exact Hv.
           ++ destruct Hv as (d' & Hin & Hd'). right. right. right.
              exists d'. split; [right; exact Hin | exact Hd'].
        -- intros name Hnot. simpl in Hnot. rewrite Hkeep by tauto.
           apply lookup_insert_ne. tauto.
      * destruct (isMandatory d) eqn:Hm; [discriminate H|].
        apply IH in H as (HP & HKw & Hdom & Hsrc & Hkeep). clear IH.
        split; [rewrite HP, !drop_nil; reflexivity|].
        split; [exact HKw|]. split; [|split].
        -- intros name. rewrite Hdom. simpl.
           destruct (decide (paramName d = name)) as [<-|Hne].
           ++ rewrite lookup_insert_eq. split; intros _; [right; left; reflexivity|].
              left. eauto.
           ++ rewrite lookup_insert_ne by exact Hne. tauto.
        -- intros name v Hv. apply Hsrc in Hv as [Hv|[Hv|[Hv|Hv]]].
           ++ destruct (decide (paramName d = name)) as [<-|Hne].
              ** rewrite lookup_insert_eq in Hv. injection Hv as <-.
                 right. right. right. exists d.
                 split; [left; reflexivity|]. repeat split. exact Hm.
              ** rewrite lookup_insert_ne in Hv by exact Hne. left. exact Hv.
           ++ destruct Hv.
           ++ right. right. left. exact Hv.
           ++ destruct Hv as (d' & Hin & Hd'). right. right. right.
              exists d'. split; [right; exact Hin | exact Hd'].
        -- intros name Hnot. simpl in Hnot. rewrite Hkeep by tauto.
           apply lookup_insert_ne. tauto.
    + apply IH in H as (HP & HKw & Hdom & Hsrc & Hkeep). clear IH.
      split; [exact HP|]. split; [exact HKw|]. split; [|split].
      * intros name. rewrite Hdom. simpl.
        destruct (decide (paramName d = name)) as [<-|Hne].
        -- rewrite lookup_insert_eq. split; intros _; [right; left; reflexivity|].
           left. eauto.
        -- rewrite lookup_insert_ne by exact Hne. tauto.
      * intros name v Hv. apply Hsrc in Hv as [Hv|[Hv|[Hv|Hv]]].
        -- destruct (decide (paramName d = name)) as [<-|Hne].
           ++ rewrite lookup_insert_eq in Hv. injection Hv as <-.
              right. left. left. reflexivity.
           ++ rewrite lookup_insert_ne in Hv by exact Hne. left. exact Hv.
        -- right. left. right. exact Hv.
        -- right. right. left. exact Hv.
        -- destruct Hv as (d' & Hin & Hd'). right. right. right.
           exists d'. split; [right; exact Hin | exact Hd'].
      * intros name Hnot. simpl in Hnot. rewrite Hkeep by tauto.
        apply lookup_insert_ne. tauto.
Qed.

(** The positional argument at an index is bound to the descriptor at
    that index, unless a later descriptor takes the same name. *)
Lemma bind_arguments_positional (descriptors : list (ArgInfo (Value Fn))) :
  forall (P : list (Value Fn)) (K bound matched : ValuesMap Fn)
         (extraPos : list (Value Fn)) (extraKw : ValuesMap Fn)
         (i : nat) (d : ArgInfo (Value Fn)) (v : Value Fn),
    bind_arguments descriptors P K bound = Some (matched, extraPos, extraKw) ->
    descriptors !! i = Some d ->
    P !! i = Some v ->
    ~ In (paramName d) (List.map paramName (drop (S i) descriptors)) ->
    matched !! paramName d = Some v.
Proof.
  induction descriptors as [|d0 rest IH];
    intros P K bound matched extraPos extraKw i d v H Hd Hv Hlater.
  - discriminate Hd.
  - destruct P as [|positional P']; [discriminate Hv|]. simpl in H.
    destruct i as [|i].
    + injection Hd as <-. injection Hv as <-. simpl in Hlater.
      rewrite drop_0 in Hlater.
      apply bind_arguments_spec in H as (_ & _ & _ & _ & Hkeep).
      rewrite Hkeep by exact Hlater. apply lookup_insert_eq.
    + apply (IH P' K _ matched extraPos extraKw i d v H Hd Hv). exact Hlater.
Qed.

(** A call fails only over a mandatory descriptor. *)
Lemma bind_arguments_missing (descriptors : list (ArgInfo (Value Fn))) :
  forall (P : list (Value Fn)) (K bound : ValuesMap Fn),
    bind_arguments descriptors P K bound = None ->
    exists d, In d (drop (length P) descriptors) /\ isMandatory d = true.
Proof.
  induction descriptors as [|d rest IH]; intros P K bound H.
  - discriminate H.
  - simpl in H. destruct P as [|positional P'].
    + destruct (K !! paramName d) as [named|].
      * apply IH in H as (d' & Hin & Hm). exists d'. split; [right|]; assumption.
      * destruct (isMandatory d) eqn:Hm.
        -- exists d. split; [left; reflexivity | exact Hm].
        -- apply IH in H as (d' & Hin & Hm'). exists d'. split; [right|]; assumption.
    + apply IH in H. exact H.
Qed.

(** C8. A callable carries the invocation function, which is applied to
    the call-params bundle and returns a [Value], and the ordered list of
    its argument descriptors, whose names key the bound arguments, whose
    order decides which positional argument each one takes, and whose
    defaults are what a non-mandatory descriptor falls back to.  The
    bundle handed to the invocation function carries the bound arguments
    as a name-to-Value map, the extra positional arguments as a list, the
    extra named arguments as a map, and the handle to the current
    scope. *)
Theorem call_params_bundle_shape (uc : UserCallable Fn (Value Fn))
  (P : list (Value Fn)) (K : ValuesMap Fn) (scope : Value Fn)
  (bundle : UserCallableParams Fn) :
  assemble_call_params (argsInfo uc) P K scope = Some bundle ->
  UserCallable_invoke uc P K scope = CallReturns (invoke (callable uc) bundle)
  /\ (forall name,
         is_Some (args bundle !! name)
         <-> In name (List.map paramName (argsInfo uc)))
  /\ (forall i d v,
         argsInfo uc !! i = Some d ->
         P !! i = Some v ->
         ~ In (paramName d) (List.map paramName (drop (S i) (argsInfo uc))) ->
         UserCallableParams_index bundle (paramName d) = v)
  /\ (forall name v,
         args bundle !! name = Some v ->
         In v P \/ K !! name = Some v
         \/ exists d, In d (argsInfo uc) /\ paramName d = name
                      /\ isMandatory d = false /\ defValue d = v)
  /\ extraPosArgs bundle = VValuesList (drop (length (argsInfo uc)) P)
  /\ isList (extraPosArgs bundle) = true
  /\ (exists extraKw,
         extraKwArgs bundle = VValuesMap extraKw
         /\ forall name v, extraKw !! name = Some v -> K !! name = Some v)
  /\ isMap (extraKwArgs bundle) = true
  /\ context bundle = scope.
Proof.
  intros H. unfold UserCallable_invoke. rewrite H.
  unfold assemble_call_params in H.
  destruct (bind_arguments (argsInfo uc) P K ∅) as [[[matched extraPos] extraKw]|] eqn:Hb;
    [|discriminate H].
  injection H as <-. simpl.
  pose proof (bind_arguments_spec _ _ _ _ _ _ _ Hb) as (HP & HKw & Hdom & Hsrc & _).
  split; [reflexivity|]. split; [|split; [|split; [|split; [|split; [|split]]]]].
  - intros name. rewrite Hdom, lookup_empty. split.
    + intros [[x Hx]|Hin]; [discriminate Hx | exact Hin].
    + intros Hin. right. exact Hin.
  - intros i d v Hd Hv Hlater. unfold UserCallableParams_index. simpl.
    rewrite (bind_arguments_positional _ _ _ _ _ _ _ _ _ _ Hb Hd Hv Hlater).
    reflexivity.
  - intros name v Hv. apply Hsrc in Hv as [Hv|Hv]; [|exact Hv].
    rewrite lookup_empty in Hv. discriminate Hv.
  - rewrite HP. reflexivity.
  - reflexivity.
  - exists extraKw. split; [reflexivity | exact HKw].
  - split; reflexivity.
Qed.

End CallProtocolFacts.

(* ===================================================================== *)
(** * Part V. Properties of the template driver                           *)
(* ===================================================================== *)

Section TemplateImplFacts.
Context {Fn InternalValue RendererBase : Type}.
Context `{!Collaborators Fn InternalValue RendererBase}.

(** The stream writer never throws; it leaves the string that the writer
    steps build up from left to right. *)
Lemma GenericStreamWriter_calls_spec (c : CharT)
  (calls : list (WriterCall InternalValue c)) (os : basic_string c) :
  GenericStreamWriter_calls c calls os = (inl tt, fold_left (writer_step c) calls os).
Proof.
  revert os. induction calls as [|call rest IH]; intros os.
  - reflexivity.
  - simpl. unfold Exec_bind.
    destruct call as [buffer|val]; simpl; rewrite IH; reflexivity.
Qed.

(** A run made of [WriteBuffer] calls only appends the buffers in order. *)
Lemma writer_steps_buffers (c : CharT) (buffers : list (basic_string c))
  (os : basic_string c) :
  fold_left (writer_step c) (List.map CallWriteBuffer buffers) os
  = fold_left (basic_string_append c) buffers os.
Proof.
  revert os. induction buffers as [|b rest IH]; intros os; simpl.
  - reflexivity.
  - rewrite IH. reflexivity.
Qed.

Lemma Render_try_spec (c : CharT) (this : TemplateImpl Fn RendererBase c)
  (renderer : RendererBase) (params : ValuesMap Fn) (os : basic_string c) :
  Render_try c this renderer params os
  = (match snd (RendererBase_Render c renderer (Render_context c this params)) with
     | None => inl tt
     | Some ex => inr ex
     end,
     fold_left (writer_step c)
       (fst (RendererBase_Render c renderer (Render_context c this params))) os).
Proof.
  unfold Render_try, Renderer_Render_on, Exec_bind.
  rewrite GenericStreamWriter_calls_spec.
  destruct (snd (RendererBase_Render c renderer (Render_context c this params)));
    reflexivity.
Qed.

(** [Render] never touches the caller's string except through the stream
    writer. *)
Lemma Render_output (c : CharT) (this : TemplateImpl Fn RendererBase c)
  (renderer : RendererBase) (params : ValuesMap Fn) (os : basic_string c) :
  m_renderer this = Some renderer ->
  snd (Render c this os params)
  = fold_left (writer_step c)
      (fst (RendererBase_Render c renderer (Render_context c this params))) os.
Proof.
  intros Hr. unfold Render. rewrite Hr, Render_try_spec.
  destruct (snd (RendererBase_Render c renderer (Render_context c this params)))
    as [[| | |]|]; reflexivity.
Qed.

(** X19. An engine error raised through [ThrowRuntimeError] while the renderer
    runs comes back as the returned error, in the template's own width. *)
Lemma Render_returns_engine_error (c : CharT) (this : TemplateImpl Fn RendererBase c)
  (renderer : RendererBase) (os : basic_string c) (params : ValuesMap Fn)
  (calls : list (WriterCall InternalValue c)) (code : ErrorCode)
  (extraParams : ValuesList Fn) :
  m_renderer this = Some renderer ->
  RendererBase_Render c renderer (Render_context c this params)
  = (calls, Some (ThrowRuntimeError c this code extraParams)) ->
  fst (Render c this os params)
  = Returns
      (Some
         (ErrorInfoTpl.mk
            (ErrorInfoTpl.mkData c code (mkSourceLocation (m_templateName this) 1 1)
               (basic_string_empty c) extraParams))).
Proof.
  intros Hr Hrun. unfold Render. rewrite Hr, Render_try_spec, Hrun.
  destruct c; reflexivity.
Qed.

(** A failed [Load] leaves the renderer pointer as it was. *)
Lemma Load_failure_keeps_renderer (c : CharT) (this : TemplateImpl Fn RendererBase c)
  (tpl : basic_string c) (tplName : string) :
  fst (Load c this tpl tplName) <> WellDefined None ->
  m_renderer (snd (Load c this tpl tplName)) = m_renderer this.
Proof.
  unfold Load.
  destruct (TemplateParser_Parse c _ _ _ _) as [renderer|[|e rest]]; simpl;
    intros H; try reflexivity.
  exfalso. apply H. reflexivity.
Qed.

(** A template object on which no [Load] has succeeded has no renderer. *)
Lemma never_loaded_has_no_renderer (c : CharT) (env : option (TemplateEnv Fn))
  (sources : list (basic_string c * string)) :
  Load_each_failed c (TemplateImpl_new c env) sources = true ->
  m_renderer (Load_each c (TemplateImpl_new c env) sources) = None.
Proof.
  assert (G : forall this : TemplateImpl Fn RendererBase c,
             m_renderer this = None ->
             Load_each_failed c this sources = true ->
             m_renderer (Load_each c this sources) = None).
  { induction sources as [|[tpl tplName] rest IH]; intros this Hnone Hfailed.
    - exact Hnone.
    - simpl in *. apply IH.
      + rewrite Load_failure_keeps_renderer; [exact Hnone|].
        intros E. rewrite E in Hfailed. discriminate Hfailed.
      + destruct (fst (Load c this tpl tplName)) as [[e|]|];
          [exact Hfailed | discriminate Hfailed | exact Hfailed]. }
  apply G. reflexivity.
Qed.

End TemplateImplFacts.

Section TemplateImplClaims.
Context {Fn InternalValue RendererBase : Type}.
Context `{!Collaborators Fn InternalValue RendererBase}.

(** C2. On a template object without a renderer, [Render] returns an
    error whose code is [TemplateNotParsed] and which carries a source
    location (line 1, column 1 of an unknown file), and the caller's
    output string is left exactly as it was. *)
Theorem Render_without_renderer (c : CharT) (this : TemplateImpl Fn RendererBase c)
  (os : basic_string c) (params : ValuesMap Fn) :
  m_renderer this = None ->
  exists error : ErrorInfoTpl.t Fn c,
    Render c this os params = (Returns (Some error), os)
    /\ ErrorInfoTpl.GetCode error = TemplateNotParsed
    /\ ErrorInfoTpl.GetErrorLocation error = mkSourceLocation "<unknown file>" 1 1
    /\ ErrorInfoTpl.GetExtraParams error = [].
Proof.
  intros Hnone. unfold Render. rewrite Hnone.
  eexists. split; [reflexivity|]. repeat split.
Qed.

(** C3. Converting an error payload from one width to another keeps the
    error code, the source location and the extra-params list, and
    transcodes the location description; converting to the same width
    returns the payload itself. *)
Theorem ErrorConverter_keeps_fields :
  (forall (c1 c2 : CharT) (srcError : ErrorInfoTpl.t Fn c2),
      ErrorInfoTpl.GetCode (ErrorConverter_Convert c1 c2 srcError)
      = ErrorInfoTpl.GetCode srcError
      /\ ErrorInfoTpl.GetErrorLocation (ErrorConverter_Convert c1 c2 srcError)
         = ErrorInfoTpl.GetErrorLocation srcError
      /\ ErrorInfoTpl.GetExtraParams (ErrorConverter_Convert c1 c2 srcError)
         = ErrorInfoTpl.GetExtraParams srcError)
  /\ (forall srcError : ErrorInfoTpl.t Fn Wide,
         ErrorInfoTpl.GetLocationDescr (ErrorConverter_Convert Narrow Wide srcError)
         = ConvertString Narrow Wide (ErrorInfoTpl.GetLocationDescr srcError))
  /\ (forall srcError : ErrorInfoTpl.t Fn Narrow,
         ErrorInfoTpl.GetLocationDescr (ErrorConverter_Convert Wide Narrow srcError)
         = ConvertString Wide Narrow (ErrorInfoTpl.GetLocationDescr srcError))
  /\ (forall (c : CharT) (srcError : ErrorInfoTpl.t Fn c),
         ErrorConverter_Convert c c srcError = srcError).
Proof.
  split; [|split; [|split]].
  - intros [|] [|] srcError; repeat split.
  - reflexivity.
  - reflexivity.
  - intros [|] srcError; reflexivity.
Qed.

(** C5. When the parser fails, reporting the failures [first :: more],
    [Load] returns exactly the error [first], stops there and leaves the
    renderer as it was; when the parser succeeds, [Load] returns no error
    and the object holds the renderer the parser produced. *)
Theorem Load_first_error_or_renderer (c : CharT) (this : TemplateImpl Fn RendererBase c)
  (tpl : basic_string c) (tplName : string) :
  (forall (first : ErrorInfoTpl.t Fn c) (more : list (ErrorInfoTpl.t Fn c)),
      TemplateParser_Parse c tpl (m_settings this) (m_env this)
        (if string_empty tplName then "noname.j2tpl" else tplName)
      = inr (first :: more) ->
      fst (Load c this tpl tplName) = WellDefined (Some first)
      /\ m_renderer (snd (Load c this tpl tplName)) = m_renderer this)
  /\ (forall renderer : RendererPtr RendererBase,
         TemplateParser_Parse c tpl (m_settings this) (m_env this)
           (if string_empty tplName then "noname.j2tpl" else tplName)
         = inl renderer ->
         fst (Load c this tpl tplName) = WellDefined None
         /\ m_renderer (snd (Load c this tpl tplName)) = renderer).
Proof.
  split.
  - intros first more Hparse. unfold Load. simpl. rewrite Hparse. simpl.
    split; reflexivity.
  - intros renderer Hparse. unfold Load. simpl. rewrite Hparse. simpl.
    split; reflexivity.
Qed.

(** C1 (amended). If an object of a class derived from [std::exception]
    escapes while the renderer runs, [Render] does not let it through: it
    returns an error whose code is [UnexpectedException], located at line
    1, column 1 of the template, and whose extra-params list holds the
    exception's [what()] text as a string [Value]. *)
Theorem Render_converts_std_exception (c : CharT)
  (this : TemplateImpl Fn RendererBase c) (renderer : RendererBase)
  (os : basic_string c) (params : ValuesMap Fn)
  (calls : list (WriterCall InternalValue c)) (what : string) :
  m_renderer this = Some renderer ->
  RendererBase_Render c renderer (Render_context c this params)
  = (calls, Some (ThrowStdException what)) ->
  exists error : ErrorInfoTpl.t Fn c,
    fst (Render c this os params) = Returns (Some error)
    /\ ErrorInfoTpl.GetCode error = UnexpectedException
    /\ ErrorInfoTpl.GetErrorLocation error = mkSourceLocation (m_templateName this) 1 1
    /\ ErrorInfoTpl.GetExtraParams error = [VString what]
    /\ In (VString what) (ErrorInfoTpl.GetExtraParams error).
Proof.
  intros Hr Hrun. unfold Render. rewrite Hr, Render_try_spec, Hrun. simpl.
  eexists. split; [reflexivity|]. repeat split. left. reflexivity.
Qed.

(** C6. When the renderer throws after some writer calls, whatever the
    thrown object is, [Render] does not end with success and the caller's
    string afterwards is the string those writer calls built: every
    [WriteBuffer] appended its buffer, in order, and nothing is taken
    back. *)
Theorem Render_keeps_partial_output (c : CharT)
  (this : TemplateImpl Fn RendererBase c) (renderer : RendererBase)
  (os : basic_string c) (params : ValuesMap Fn)
  (calls : list (WriterCall InternalValue c)) (ex : Thrown Fn) :
  m_renderer this = Some renderer ->
  RendererBase_Render c renderer (Render_context c this params) = (calls, Some ex) ->
  fst (Render c this os params) <> Returns None
  /\ snd (Render c this os params) = fold_left (writer_step c) calls os
  /\ (forall buffers : list (basic_string c),
         calls = List.map CallWriteBuffer buffers ->
         snd (Render c this os params) = fold_left (basic_string_append c) buffers os).
Proof.
  intros Hr Hrun.
  assert (Hout : snd (Render c this os params) = fold_left (writer_step c) calls os).
  { rewrite (Render_output c this renderer params os Hr), Hrun. reflexivity. }
  split; [|split].
  - unfold Render. rewrite Hr, Render_try_spec, Hrun. simpl.
    destruct ex; simpl; discriminate.
  - exact Hout.
  - intros buffers ->. rewrite Hout. apply writer_steps_buffers.
Qed.

End TemplateImplClaims.

(** X20. Transcoding there and back restores the payload whenever the string
    transcoder restores the location description. *)
Lemma ErrorConverter_round_trip {Fn InternalValue RendererBase : Type}
  `{!Collaborators Fn InternalValue RendererBase}
  (c1 c2 : CharT) (srcError : ErrorInfoTpl.t Fn c2) :
  ConvertString c2 c1 (ConvertString c1 c2 (ErrorInfoTpl.GetLocationDescr srcError))
  = ErrorInfoTpl.GetLocationDescr srcError ->
  ErrorConverter_Convert c2 c1 (ErrorConverter_Convert c1 c2 srcError) = srcError.
Proof.
  destruct srcError as [[code loc descr extra]].
  destruct c1, c2; simpl; intros E; try reflexivity;
    unfold ErrorConverter_Convert_across; cbn in *; rewrite E; reflexivity.
Qed.

(* ===================================================================== *)
(** * Part VI. The properties at concrete inputs                          *)
(* ===================================================================== *)

Example isList_generic_list :
  isList (VGenericList (mkGenericList None) : Value NoFn) = true
  /\ asList (VGenericList (mkGenericList None) : Value NoFn) = BadVariantAccess.
Proof. split; reflexivity. Qed.

Example asMap_plain_map :
  asMap (VValuesMap ∅ : Value NoFn) = Got ∅
  /\ asMap (VInt64 3%Z : Value NoFn) = BadVariantAccess.
Proof. split; reflexivity. Qed.

Example answer_map_lookup :
  GenericMap_GetValueByName answer_map "answer" = WellDefined (VInt64 42%Z)
  /\ GenericMap_GetSize answer_map = WellDefined 1%N
  /\ GenericMap_GetKeys answer_map = WellDefined ["answer"]
  /\ GenericMap_HasValue null_provider_map "answer" = UndefinedBehaviour.
Proof. repeat split. Qed.

Example demo_params_lookup :
  UserCallableParams_index demo_params "str1" = VString "Hello".
Proof. vm_compute. reflexivity. Qed.

Example Load_then_Render_hello :
  let loaded := snd (Load Narrow (TemplateImpl_new Narrow None)
                       ("Hello" : basic_string Narrow) "") in
  m_templateName loaded = "noname.j2tpl"
  /\ Render Narrow loaded ("> " : basic_string Narrow) ∅
     = (Returns None, ("> Hello" : basic_string Narrow)).
Proof. split; vm_compute; reflexivity. Qed.

Example transcode_demo_wide_error :
  ErrorInfoTpl.GetLocationDescr (ErrorConverter_Convert Narrow Wide demo_wide_error)
  = ("hi" : basic_string Narrow).
Proof. reflexivity. Qed.

(** C4, at a host dictionary that keeps the contract. *)
Lemma absent_entry_reads_Empty_witness :
  UserCallableParams_index demo_params "str2" = Value_default
  /\ GenericMap_GetValueByName answer_map "str2" = WellDefined Value_default
  /\ GenericMap_GetValueByName answer_map "answer" = WellDefined (VInt64 42%Z).
Proof.
  destruct (absent_entry_reads_Empty NoFn demo_params answer_map "str2")
    as (Hindex & Hmap & Hforward & _).
  - vm_compute. reflexivity.
  - reflexivity.
  - intros provider accessor E Ep. injection E as <-. injection Ep as <-.
    intros _. reflexivity.
  - split; [exact Hindex|]. split; [exact Hmap|].
    apply (Hforward (fun _ => Some answer_accessor) answer_accessor "answer");
      reflexivity.
Defined.

(** C2, at a template object that was never loaded. *)
Lemma Render_without_renderer_witness :
  exists error : ErrorInfoTpl.t NoFn Narrow,
    Render Narrow (demo_template None) ("kept" : basic_string Narrow) ∅
    = (Returns (Some error), ("kept" : basic_string Narrow))
    /\ ErrorInfoTpl.GetCode error = TemplateNotParsed
    /\ ErrorInfoTpl.GetErrorLocation error = mkSourceLocation "<unknown file>" 1 1
    /\ ErrorInfoTpl.GetExtraParams error = [].
Proof.
  apply (Render_without_renderer Narrow (demo_template None)). reflexivity.
Defined.

(** C5, at the empty template (two failures reported) and at a template
    that parses. *)
Lemma Load_first_error_or_renderer_witness :
  (fst (Load Narrow (demo_template None) ("" : basic_string Narrow) "")
   = WellDefined (Some (demo_syntax_error Narrow "empty template" "noname.j2tpl" 1))
   /\ m_renderer (snd (Load Narrow (demo_template None) ("" : basic_string Narrow) ""))
      = None)
  /\ (fst (Load Narrow (demo_template None) ("Hi" : basic_string Narrow) "hi.j2tpl")
      = WellDefined None
      /\ m_renderer
           (snd (Load Narrow (demo_template None) ("Hi" : basic_string Narrow) "hi.j2tpl"))
         = Some (mkScriptedRenderer
                   ([CallWriteBuffer ("Hi" : basic_string Narrow)], None) ([], None))).
Proof.
  split.
  - apply (proj1 (Load_first_error_or_renderer Narrow (demo_template None)
                    ("" : basic_string Narrow) "")
             (demo_syntax_error Narrow "empty template" "noname.j2tpl" 1)
             [demo_syntax_error Narrow "missing end" "noname.j2tpl" 2]).
    reflexivity.
  - apply (proj2 (Load_first_error_or_renderer Narrow (demo_template None)
                    ("Hi" : basic_string Narrow) "hi.j2tpl")).
    reflexivity.
Defined.

(** C1, at a renderer from which a [std::runtime_error] escapes. *)
Lemma Render_converts_std_exception_witness :
  exists error : ErrorInfoTpl.t NoFn Narrow,
    fst (Render Narrow (demo_template (Some greet_then_fail))
           ("" : basic_string Narrow) ∅)
    = Returns (Some error)
    /\ ErrorInfoTpl.GetCode error = UnexpectedException
    /\ ErrorInfoTpl.GetErrorLocation error = mkSourceLocation "hello.j2tpl" 1 1
    /\ ErrorInfoTpl.GetExtraParams error = [VString "boom"]
    /\ In (VString "boom") (ErrorInfoTpl.GetExtraParams error).
Proof.
  apply (Render_converts_std_exception Narrow (demo_template (Some greet_then_fail))
           greet_then_fail ("" : basic_string Narrow) ∅
           [CallWriteBuffer ("Hello " : basic_string Narrow);
            CallWriteValue (VString "World")]
           "boom").
  - reflexivity.
  - reflexivity.
Defined.

(** C1 as stated fails: an object that is neither an engine error nor
    derived from [std::exception] matches no handler and leaves
    [Render]. *)
Lemma Render_lets_foreign_object_through :
  RendererBase_Render Narrow greet_then_throw_int
    (Render_context Narrow (demo_template (Some greet_then_throw_int)) ∅)
  = ([CallWriteBuffer ("Hello " : basic_string Narrow)], Some (ThrowOther 42%Z))
  /\ fst (Render Narrow (demo_template (Some greet_then_throw_int))
            ("" : basic_string Narrow) ∅)
     = Propagates (ThrowOther 42%Z)
  /\ (forall result : option (ErrorInfoTpl.t NoFn Narrow),
         fst (Render Narrow (demo_template (Some greet_then_throw_int))
                ("" : basic_string Narrow) ∅)
         <> Returns result).
Proof.
  split; [reflexivity|]. split; [vm_compute; reflexivity|].
  intros result E. vm_compute in E. discriminate E.
Qed.

(** C6, at a renderer that fails after writing a greeting. *)
Lemma Render_keeps_partial_output_witness :
  fst (Render Narrow (demo_template (Some greet_then_fail))
         ("<<" : basic_string Narrow) ∅)
  <> Returns None
  /\ snd (Render Narrow (demo_template (Some greet_then_fail))
            ("<<" : basic_string Narrow) ∅)
     = ("<<Hello World" : basic_string Narrow).
Proof.
  edestruct (Render_keeps_partial_output Narrow (demo_template (Some greet_then_fail))
               greet_then_fail ("<<" : basic_string Narrow) ∅) as [Hfail [Hout _]].
  - reflexivity.
  - reflexivity.
  - split; [exact Hfail | exact Hout].
Defined.

(** C10, at a generic list and at a plain list. *)
Lemma isList_isMap_wider_than_asList_asMap_witness :
  isList (VGenericList (mkGenericList None) : Value NoFn) = true
  /\ asList (VGenericList (mkGenericList None) : Value NoFn) = BadVariantAccess
  /\ asList (VValuesList [VInt64 1%Z] : Value NoFn) = Got [VInt64 1%Z].
Proof.
  destruct (isList_isMap_wider_than_asList_asMap NoFn
              (VGenericList (mkGenericList None) : Value NoFn))
    as (HisList & _ & _ & _ & Hthrows & _).
  destruct (isList_isMap_wider_than_asList_asMap NoFn
              (VValuesList [VInt64 1%Z] : Value NoFn))
    as (_ & _ & Hgot & _).
  split; [|split].
  - apply HisList. right. eexists. reflexivity.
  - apply Hthrows. intros [l E]. discriminate E.
  - apply Hgot. reflexivity.
Defined.

(* ===================================================================== *)
(** * Part VII. Further properties of [value.h]                           *)
(* ===================================================================== *)

Section ValueFactsRest.
Variable Fn : Type.

(** X1. The four queries of a [GenericMap] depend on what its provider
    hands out: for a pointer to an accessor each query returns what that
    accessor returns; for the null pointer each query is undefined, the
    pointer being dereferenced without a check; and only a map without
    provider, which is the default-constructed one, falls back to the
    neutral results. *)
Theorem GenericMap_queries_follow_accessor (g : GenericMap (Value Fn)) :
  match m_accessor g with
  | Some provider =>
      match provider tt with
      | Some accessor =>
          (forall name,
              GenericMap_HasValue g name
              = WellDefined (MapItemAccessor.HasValue accessor name)
              /\ GenericMap_GetValueByName g name
                 = WellDefined (MapItemAccessor.GetValueByName accessor name))
          /\ GenericMap_GetSize g = WellDefined (MapItemAccessor.GetSize accessor)
          /\ GenericMap_GetKeys g = WellDefined (MapItemAccessor.GetKeys accessor)
      | None =>
          (forall name,
              GenericMap_HasValue g name = UndefinedBehaviour
              /\ GenericMap_GetValueByName g name = UndefinedBehaviour)
          /\ GenericMap_GetSize g = UndefinedBehaviour
          /\ GenericMap_GetKeys g = UndefinedBehaviour
      end
  | None =>
      g = GenericMap_default
      /\ (forall name,
             GenericMap_HasValue g name = WellDefined false
             /\ GenericMap_GetValueByName g name = WellDefined Value_default)
      /\ GenericMap_GetSize g = WellDefined 0%N
      /\ GenericMap_GetKeys g = WellDefined []
  end.
Proof.
  destruct g as [[provider|]];
    unfold GenericMap_HasValue, GenericMap_GetValueByName, GenericMap_GetSize,
      GenericMap_GetKeys; simpl.
  - destruct (provider tt) as [accessor|]; repeat split.
  - repeat split.
Qed.

(** X2. For strings the test and the getter agree: [isString] holds
    exactly when [asString] returns, [isWString] exactly when [asWString]
    returns.  A string view is a string for neither of them. *)
Theorem string_tests_agree_with_getters (v : Value Fn) :
  (isString v = true <-> exists s, asString v = Got s)
  /\ (isString v = false <-> asString v = BadVariantAccess)
  /\ (isWString v = true <-> exists s, asWString v = Got s)
  /\ (isWString v = false <-> asWString v = BadVariantAccess)
  /\ (forall s, isString (@VStringView Fn s) = false
                /\ asString (@VStringView Fn s) = BadVariantAccess)
  /\ (forall s, isWString (@VWStringView Fn s) = false
                /\ asWString (@VWStringView Fn s) = BadVariantAccess).
Proof.
  split; [|split; [|split; [|split; [|split]]]].
  - destruct v; simpl; split; try discriminate; eauto;
      intros [s0 E]; discriminate E.
  - destruct v; simpl; split; try discriminate; reflexivity.
  - destruct v; simpl; split; try discriminate; eauto;
      intros [s0 E]; discriminate E.
  - destruct v; simpl; split; try discriminate; reflexivity.
  - intros s. split; reflexivity.
  - intros s. split; reflexivity.
Qed.

(** X3. At most one of the five type tests holds for a value; [isEmpty]
    holds for the default-constructed value only; and booleans, string
    views, integers, doubles and callables pass none of the tests. *)
Theorem type_tests_exclusive (v : Value Fn) :
  Nat.b2n (isEmpty v) + Nat.b2n (isString v) + Nat.b2n (isWString v)
  + Nat.b2n (isList v) + Nat.b2n (isMap v) <= 1
  /\ (isEmpty v = true <-> v = Value_default)
  /\ (Nat.b2n (isEmpty v) + Nat.b2n (isString v) + Nat.b2n (isWString v)
      + Nat.b2n (isList v) + Nat.b2n (isMap v) = 0
      <-> (exists b, v = VBool b) \/ (exists s, v = VStringView s)
          \/ (exists s, v = VWStringView s) \/ (exists i, v = VInt64 i)
          \/ (exists d, v = VDouble d) \/ (exists c, v = VUserCallable c)).
Proof.
  split; [|split].
  - destruct v; simpl; lia.
  - split; [apply isEmpty_inv | intros ->; reflexivity].
  - split.
    + destruct v; simpl; intros E; try discriminate E; eauto 10.
    + intros [[b ->]|[[s ->]|[[s ->]|[[i ->]|[[d ->]|[c ->]]]]]]; reflexivity.
Qed.

(** X4. [operator[]] cannot tell an absent argument from one bound to the
    empty value: its result is the empty value exactly in these two
    cases, and a non-empty result is always the value stored under the
    name. *)
Theorem UserCallableParams_index_Empty_iff (p : UserCallableParams Fn) (name : string) :
  (UserCallableParams_index p name = Value_default
   <-> args p !! name = None \/ args p !! name = Some Value_default)
  /\ (isEmpty (UserCallableParams_index p name) = false
      <-> exists v, args p !! name = Some v /\ isEmpty v = false
                    /\ UserCallableParams_index p name = v).
Proof.
  unfold UserCallableParams_index.
  destruct (args p !! name) as [v|]; split; split.
  - intros ->. right. reflexivity.
  - intros [E|E]; [discriminate E | congruence].
  - intros E. exists v. repeat split. exact E.
  - intros (w & E & Hw & _). congruence.
  - intros _. left. reflexivity.
  - reflexivity.
  - simpl. discriminate.
  - intros (w & E & _). discriminate E.
Qed.

End ValueFactsRest.

(* ===================================================================== *)
(** * Part VIII. Further properties of [template_impl.h]                  *)
(* ===================================================================== *)

Section TemplateImplFactsRest.
Context {Fn InternalValue RendererBase : Type}.
Context `{!Collaborators Fn InternalValue RendererBase}.
Context `{!LoaderCollaborators Fn InternalValue RendererBase}.

Lemma basic_string_append_assoc (c : CharT) (a b d : basic_string c) :
  basic_string_append c (basic_string_append c a b) d
  = basic_string_append c a (basic_string_append c b d).
Proof.
  destruct c.
  - change (String.append (String.append a b) d = String.append a (String.append b d)).
    induction a as [|ch a IH]; [reflexivity|].
    change (String ch (String.append (String.append a b) d)
            = String ch (String.append a (String.append b d))).
    f_equal. exact IH.
  - symmetry. apply List.app_assoc.
Qed.

Lemma basic_string_append_empty_r (c : CharT) (a : basic_string c) :
  basic_string_append c a (basic_string_empty c) = a.
Proof.
  destruct c.
  - change (String.append a EmptyString = a).
    induction a as [|ch a IH]; [reflexivity|].
    change (String ch (String.append a EmptyString) = String ch a).
    f_equal. exact IH.
  - apply List.app_nil_r.
Qed.

Lemma fold_left_append_concat (c : CharT) (buffers : list (basic_string c))
  (os : basic_string c) :
  fold_left (basic_string_append c) buffers os
  = basic_string_append c os (basic_string_concat c buffers).
Proof.
  revert os. induction buffers as [|b rest IH]; intros os; simpl.
  - symmetry. apply basic_string_append_empty_r.
  - rewrite IH. apply basic_string_append_assoc.
Qed.

Lemma StringStreamWriter_calls_spec (c : CharT)
  (calls : list (WriterCall InternalValue c)) (str : basic_string c) :
  StringStreamWriter_calls c calls str = (inl tt, fold_left (writer_step c) calls str).
Proof.
  revert str. induction calls as [|call rest IH]; intros str.
  - reflexivity.
  - simpl. unfold Exec_bind.
    destruct call as [buffer|val]; simpl; rewrite IH; reflexivity.
Qed.

(** Converting into an empty map converts the map entry by entry. *)
Lemma convertFn_empty (m : ValuesMap Fn) :
  convertFn m (∅ : InternalValueMap InternalValue) = convert_param <$> m.
Proof.
  unfold convertFn.
  apply (map_fold_weak_ind
           (fun (r : InternalValueMap InternalValue) (m : ValuesMap Fn) =>
              r = convert_param <$> m)).
  - rewrite fmap_empty. reflexivity.
  - intros i x m0 r Hi ->. rewrite fmap_insert. unfold convert_param.
    destruct (InputValueConvertor x); reflexivity.
Qed.

(** X5. [convertFn] stores every entry of [params] under its own key,
    converted by [InputValueConvertor] or else wrapped by [ValueRef],
    replacing what [intParams] held under that key; entries of
    [intParams] under other keys stay. *)
Theorem convertFn_lookup (params : ValuesMap Fn)
  (intParams : InternalValueMap InternalValue) (k : string) :
  convertFn params intParams !! k
  = match params !! k with
    | Some second => Some (convert_param second)
    | None => intParams !! k
    end.
Proof.
  unfold convertFn. revert k.
  apply (map_fold_weak_ind
           (fun (r : InternalValueMap InternalValue) (m : ValuesMap Fn) =>
              forall k, r !! k = match m !! k with
                                 | Some second => Some (convert_param second)
                                 | None => intParams !! k
                                 end)).
  - intros k. rewrite lookup_empty. reflexivity.
  - intros i x m r Hi IH k.
    assert (E : match InputValueConvertor x with
                | None => <[i := ValueRef x]> r
                | Some newParam => <[i := newParam]> r
                end = <[i := convert_param x]> r).
    { unfold convert_param. destruct (InputValueConvertor x); reflexivity. }
    rewrite E. destruct (decide (i = k)) as [->|Hne].
    + rewrite !lookup_insert_eq. reflexivity.
    + rewrite !lookup_insert_ne by exact Hne. apply IH.
Qed.

(** X6. [Render] constructs the context it hands to the renderer from
    these arguments: as [intParams] exactly the converted [params] (no
    global among them), as [extParams] the result of [SetupGlobals] on
    the converted globals of the environment, or on the empty map when
    there is no environment, and a callback that refers to the rendering
    template. *)
Theorem Render_context_scopes (c : CharT) (this : TemplateImpl Fn RendererBase c)
  (params : ValuesMap Fn) :
  Render_context c this params
  = mkRenderContext
      (convert_param <$> params)
      (SetupGlobals
         match m_env this with
         | Some env => convert_param <$> m_globalValues env
         | None => ∅
         end)
      (mkRendererCallback this).
Proof.
  unfold Render_context, ApplyGlobals.
  destruct (m_env this) as [env|]; simpl; rewrite ?convertFn_empty; reflexivity.
Qed.

(** X7. [Render] reports success (an empty optional) exactly when a
    renderer is set and its run ends normally. *)
Theorem Render_succeeds_iff (c : CharT) (this : TemplateImpl Fn RendererBase c)
  (os : basic_string c) (params : ValuesMap Fn) :
  fst (Render c this os params) = Returns None
  <-> exists renderer,
        m_renderer this = Some renderer
        /\ snd (RendererBase_Render c renderer (Render_context c this params)) = None.
Proof.
  unfold Render. destruct (m_renderer this) as [renderer|] eqn:Hr.
  - rewrite Render_try_spec.
    destruct (snd (RendererBase_Render c renderer (Render_context c this params)))
      as [[| | |]|] eqn:Hrun; simpl; split.
    all: try (intros E; discriminate E).
    all: try (intros (r & Er & E); injection Er as <-; rewrite Hrun in E;
              discriminate E).
    + intros _. exists renderer. split; [reflexivity | exact Hrun].
    + reflexivity.
  - simpl. split; [intros E; discriminate E | intros (r & Er & _); discriminate Er].
Qed.

(** X8. When the renderer makes [WriteBuffer] calls only, the caller's
    string after [Render] is its previous content followed by the buffers
    in order, whether the run ended normally or by an exception. *)
Theorem Render_appends_buffers (c : CharT) (this : TemplateImpl Fn RendererBase c)
  (renderer : RendererBase) (os : basic_string c) (params : ValuesMap Fn)
  (buffers : list (basic_string c)) (outcome : option (Thrown Fn)) :
  m_renderer this = Some renderer ->
  RendererBase_Render c renderer (Render_context c this params)
  = (List.map CallWriteBuffer buffers, outcome) ->
  snd (Render c this os params)
  = basic_string_append c os (basic_string_concat c buffers).
Proof.
  intros Hr Hrun.
  rewrite (Render_output c this renderer params os Hr), Hrun. simpl.
  rewrite writer_steps_buffers. apply fold_left_append_concat.
Qed.

(** X9. An engine error of either width thrown while the renderer runs is
    what [Render] returns, converted to the template's width: code,
    source location and extra params are those of the thrown error. *)
Theorem Render_returns_thrown_error (c c' : CharT)
  (this : TemplateImpl Fn RendererBase c) (renderer : RendererBase)
  (os : basic_string c) (params : ValuesMap Fn)
  (calls : list (WriterCall InternalValue c)) (error : ErrorInfoTpl.t Fn c') :
  m_renderer this = Some renderer ->
  RendererBase_Render c renderer (Render_context c this params)
  = (calls, Some (throw_ErrorInfoTpl c' error)) ->
  exists returned : ErrorInfoTpl.t Fn c,
    fst (Render c this os params) = Returns (Some returned)
    /\ returned = ErrorConverter_Convert c c' error
    /\ ErrorInfoTpl.GetCode returned = ErrorInfoTpl.GetCode error
    /\ ErrorInfoTpl.GetErrorLocation returned = ErrorInfoTpl.GetErrorLocation error
    /\ ErrorInfoTpl.GetExtraParams returned = ErrorInfoTpl.GetExtraParams error.
Proof.
  intros Hr Hrun. exists (ErrorConverter_Convert c c' error).
  split.
  - unfold Render. rewrite Hr, Render_try_spec, Hrun.
    destruct c'; reflexivity.
  - split; [reflexivity|]. destruct c, c'; repeat split.
Qed.

(** X10. An engine error of the template's own width comes back from
    [Render] as the very object that was thrown. *)
Theorem Render_returns_own_width_error (c : CharT)
  (this : TemplateImpl Fn RendererBase c) (renderer : RendererBase)
  (os : basic_string c) (params : ValuesMap Fn)
  (calls : list (WriterCall InternalValue c)) (error : ErrorInfoTpl.t Fn c) :
  m_renderer this = Some renderer ->
  RendererBase_Render c renderer (Render_context c this params)
  = (calls, Some (throw_ErrorInfoTpl c error)) ->
  fst (Render c this os params) = Returns (Some error).
Proof.
  intros Hr Hrun. unfold Render. rewrite Hr, Render_try_spec, Hrun.
  destruct c; reflexivity.
Qed.

(** X12. [Load] records the template text and a name before it parses,
    and keeps them whether or not parsing succeeds: the name is the one
    given, or [noname.j2tpl] for the empty name, and so is never empty
    afterwards; environment and settings stay. *)
Theorem Load_records_text_and_name (c : CharT) (this : TemplateImpl Fn RendererBase c)
  (tpl : basic_string c) (tplName : string) :
  m_template (snd (Load c this tpl tplName)) = tpl
  /\ m_templateName (snd (Load c this tpl tplName))
     = (if string_empty tplName then "noname.j2tpl" else tplName)
  /\ m_templateName (snd (Load c this tpl tplName)) <> ""
  /\ m_env (snd (Load c this tpl tplName)) = m_env this
  /\ m_settings (snd (Load c this tpl tplName)) = m_settings this.
Proof.
  unfold Load.
  destruct (TemplateParser_Parse c _ _ _ _) as [renderer|[|e rest]]; simpl;
    destruct tplName; simpl; repeat split; discriminate.
Qed.

(** X13. A [Load] that fails on an object that already has a renderer
    leaves that renderer in place next to the new text: a later [Render]
    still runs the renderer of the earlier template. *)
Theorem Load_failure_keeps_old_renderer (c : CharT)
  (this : TemplateImpl Fn RendererBase c) (renderer : RendererBase)
  (tpl : basic_string c) (tplName : string)
  (os : basic_string c) (params : ValuesMap Fn) :
  m_renderer this = Some renderer ->
  fst (Load c this tpl tplName) <> WellDefined None ->
  m_renderer (snd (Load c this tpl tplName)) = Some renderer
  /\ m_template (snd (Load c this tpl tplName)) = tpl
  /\ snd (Render c (snd (Load c this tpl tplName)) os params)
     = fold_left (writer_step c)
         (fst (RendererBase_Render c renderer
                 (Render_context c (snd (Load c this tpl tplName)) params))) os.
Proof.
  intros Hr Hfail.
  assert (Hkept : m_renderer (snd (Load c this tpl tplName)) = Some renderer).
  { rewrite Load_failure_keeps_renderer by exact Hfail. exact Hr. }
  split; [exact Hkept|]. split.
  - unfold Load.
    destruct (TemplateParser_Parse c _ _ _ _) as [r|[|e rest]]; reflexivity.
  - apply Render_output. exact Hkept.
Qed.

(** X14. As long as every [Load] on a freshly constructed template has
    failed, [Render] answers [TemplateNotParsed] and leaves the caller's
    string alone. *)
Theorem Render_before_first_successful_Load (c : CharT)
  (env : option (TemplateEnv Fn)) (sources : list (basic_string c * string))
  (os : basic_string c) (params : ValuesMap Fn) :
  Load_each_failed c (TemplateImpl_new c env) sources = true ->
  exists error : ErrorInfoTpl.t Fn c,
    Render c (Load_each c (TemplateImpl_new c env) sources) os params
    = (Returns (Some error), os)
    /\ ErrorInfoTpl.GetCode error = TemplateNotParsed.
Proof.
  intros Hfailed. unfold Render.
  rewrite (never_loaded_has_no_renderer c env sources Hfailed).
  eexists. split; reflexivity.
Qed.

(** X15. The result of [Load] is undefined exactly when the parser
    reports a failure without any error in its list; in every other case
    [Load] returns normally. *)
Theorem Load_undefined_iff (c : CharT) (this : TemplateImpl Fn RendererBase c)
  (tpl : basic_string c) (tplName : string) :
  fst (Load c this tpl tplName) = UndefinedBehaviour
  <-> TemplateParser_Parse c tpl (m_settings this) (m_env this)
        (if string_empty tplName then "noname.j2tpl" else tplName)
      = inr [].
Proof.
  unfold Load. simpl.
  destruct (TemplateParser_Parse c tpl (m_settings this) (m_env this) _)
    as [renderer|[|e rest]]; simpl; split; intros E; try discriminate E; reflexivity.
Qed.

(** X16. [LoadTemplate] by value: a value that is no string is rejected
    with an [InvalidTemplateName] error of the template's width, located
    at line 1, column 1 of the template name and carrying the offending
    value as its only extra param, before the environment is looked at; a
    string value is loaded by that name.  So the empty alternative comes
    back exactly when the value is a string and the template has no
    environment. *)
Theorem LoadTemplate_value_EmptyValue_iff (c : CharT)
  (this : TemplateImpl Fn RendererBase c) (fileName : InternalValue) (e : EmptyValue) :
  (LoadTemplate_value c this fileName = TplEmptyValue e
   <-> (exists name, GetAsSameString fileName = Some name) /\ m_env this = None)
  /\ (GetAsSameString fileName = None ->
      exists error : ErrorInfoTpl.t Fn c,
        LoadTemplate_value c this fileName = TplLoadResultType_of c (inr error)
        /\ ErrorInfoTpl.GetCode error = InvalidTemplateName
        /\ ErrorInfoTpl.GetErrorLocation error
           = mkSourceLocation (m_templateName this) 1 1
        /\ ErrorInfoTpl.GetLocationDescr error = basic_string_empty c
        /\ ErrorInfoTpl.GetExtraParams error = [IntValue2Value fileName])
  /\ (forall name, GetAsSameString fileName = Some name ->
                   LoadTemplate_value c this fileName = LoadTemplate c this name).
Proof.
  split; [|split].
  - unfold LoadTemplate_value, LoadTemplate.
    destruct (GetAsSameString fileName) as [name|]; split.
    + destruct (m_env this) as [env|].
      * destruct (TemplateLoader_Load c name env); destruct c; discriminate.
      * intros _. split; [exists name|]; reflexivity.
    + intros [_ ->]. destruct e. reflexivity.
    + destruct c; discriminate.
    + intros [[name E] _]. discriminate E.
  - intros E. unfold LoadTemplate_value. rewrite E.
    eexists. split; [reflexivity|]. repeat split.
  - intros name E. unfold LoadTemplate_value. rewrite E. reflexivity.
Qed.

(** X17. [LoadTemplate] never answers in the other width: a narrow
    template yields no wide alternative and a wide template no narrow
    one, by name and by value. *)
Theorem LoadTemplate_own_width :
  (forall (this : TemplateImpl Fn RendererBase Narrow) (fileName : string) r,
      LoadTemplate Narrow this fileName <> TplOrErrorWide r)
  /\ (forall (this : TemplateImpl Fn RendererBase Wide) (fileName : string) r,
         LoadTemplate Wide this fileName <> TplOrErrorNarrow r)
  /\ (forall (this : TemplateImpl Fn RendererBase Narrow) (fileName : InternalValue) r,
         LoadTemplate_value Narrow this fileName <> TplOrErrorWide r)
  /\ (forall (this : TemplateImpl Fn RendererBase Wide) (fileName : InternalValue) r,
         LoadTemplate_value Wide this fileName <> TplOrErrorNarrow r).
Proof.
  assert (N : forall (this : TemplateImpl Fn RendererBase Narrow) (fileName : string) r,
             LoadTemplate Narrow this fileName <> TplOrErrorWide r).
  { intros this fileName r. unfold LoadTemplate.
    destruct (m_env this) as [env|]; [|discriminate].
    destruct (TemplateLoader_Load Narrow fileName env); discriminate. }
  assert (W : forall (this : TemplateImpl Fn RendererBase Wide) (fileName : string) r,
             LoadTemplate Wide this fileName <> TplOrErrorNarrow r).
  { intros this fileName r. unfold LoadTemplate.
    destruct (m_env this) as [env|]; [|discriminate].
    destruct (TemplateLoader_Load Wide fileName env); discriminate. }
  split; [exact N|]. split; [exact W|]. split.
  - intros this fileName r. unfold LoadTemplate_value.
    destruct (GetAsSameString fileName); [apply N | discriminate].
  - intros this fileName r. unfold LoadTemplate_value.
    destruct (GetAsSameString fileName); [apply W | discriminate].
Qed.

(** X18. [StringStreamWriter] does to its target string what
    [GenericStreamWriter] does to the caller's string.  Text captured
    through [GetStreamOnString] starts from the empty string whatever the
    target held: buffers are joined in order, and a single [WriteValue]
    captures what [GetAsTargetString] returns for the value. *)
Theorem StringStreamWriter_like_GenericStreamWriter (c : CharT)
  (callback : RendererCallback Fn RendererBase c) (str : TargetString) :
  (forall calls target,
      StringStreamWriter_calls c calls target = GenericStreamWriter_calls c calls target)
  /\ (forall buffers,
         RendererCallback_GetStreamOnString c callback str
           (List.map CallWriteBuffer buffers)
         = TargetString_of c (basic_string_concat c buffers))
  /\ (forall val,
         RendererCallback_GetStreamOnString c callback str [CallWriteValue val]
         = RendererCallback_GetAsTargetString c callback val).
Proof.
  split; [|split].
  - intros calls target.
    rewrite StringStreamWriter_calls_spec, GenericStreamWriter_calls_spec. reflexivity.
  - intros buffers. unfold RendererCallback_GetStreamOnString.
    rewrite StringStreamWriter_calls_spec. simpl.
    rewrite writer_steps_buffers, fold_left_append_concat. f_equal.
    destruct c; reflexivity.
  - intros val. reflexivity.
Qed.

End TemplateImplFactsRest.

(* ===================================================================== *)
(** * Part IX. The further properties at concrete inputs                  *)
(* ===================================================================== *)

Example LoadTemplate_value_not_a_string :
  LoadTemplate_value Narrow (demo_template None) (VInt64 7%Z)
  = TplOrErrorNarrow
      (inr (ErrorInfoTpl.mk
              (ErrorInfoTpl.mkData Narrow InvalidTemplateName
                 (mkSourceLocation "hello.j2tpl" 1 1) ("" : basic_string Narrow)
                 [VInt64 7%Z])))
  /\ LoadTemplate_value Narrow (demo_template None) (VString "base")
     = TplEmptyValue mkEmptyValue.
Proof. split; reflexivity. Qed.

Example convertFn_overrides :
  convertFn (<[ "a" := VInt64 1%Z ]> ∅ : ValuesMap NoFn)
    (<[ "a" := VInt64 9%Z ]> (<[ "b" := VInt64 2%Z ]> ∅))
  = <[ "a" := VInt64 1%Z ]> (<[ "b" := VInt64 2%Z ]> ∅).
Proof. vm_compute. reflexivity. Qed.

(** X8, at a renderer that writes two buffers and then fails. *)
Lemma Render_appends_buffers_witness :
  snd (Render Narrow (demo_template (Some greet_twice_then_fail))
         ("<<" : basic_string Narrow) ∅)
  = ("<<Hello World" : basic_string Narrow).
Proof.
  apply (Render_appends_buffers Narrow (demo_template (Some greet_twice_then_fail))
           greet_twice_then_fail ("<<" : basic_string Narrow) ∅
           [("Hello " : basic_string Narrow); ("World" : basic_string Narrow)]
           (Some (ThrowStdException "late"))).
  - reflexivity.
  - reflexivity.
Defined.

(** X9, at a wide engine error escaping a narrow render. *)
Lemma Render_returns_thrown_error_witness :
  exists returned : ErrorInfoTpl.t NoFn Narrow,
    fst (Render Narrow (demo_template (Some fail_with_wide_error))
           ("" : basic_string Narrow) ∅)
    = Returns (Some returned)
    /\ returned = ErrorConverter_Convert Narrow Wide demo_wide_error
    /\ ErrorInfoTpl.GetCode returned = UndefinedValue
    /\ ErrorInfoTpl.GetErrorLocation returned = mkSourceLocation "a.j2tpl" 3 7
    /\ ErrorInfoTpl.GetExtraParams returned = [VString "x"; VInt64 5%Z].
Proof.
  apply (Render_returns_thrown_error Narrow Wide
           (demo_template (Some fail_with_wide_error)) fail_with_wide_error
           ("" : basic_string Narrow) ∅ [] demo_wide_error).
  - reflexivity.
  - reflexivity.
Defined.

(** X10, at a narrow engine error escaping a narrow render. *)
Lemma Render_returns_own_width_error_witness :
  fst (Render Narrow (demo_template (Some fail_with_engine_error))
         ("" : basic_string Narrow) ∅)
  = Returns (Some demo_narrow_error).
Proof.
  apply (Render_returns_own_width_error Narrow
           (demo_template (Some fail_with_engine_error)) fail_with_engine_error
           ("" : basic_string Narrow) ∅
           [CallWriteBuffer ("a" : basic_string Narrow)] demo_narrow_error).
  - reflexivity.
  - reflexivity.
Defined.

(** X13, at a loaded template whose reload with the empty text fails. *)
Lemma Load_failure_keeps_old_renderer_witness :
  m_renderer (snd (Load Narrow (demo_template (Some greet_twice_then_fail))
                     ("" : basic_string Narrow) "next.j2tpl"))
  = Some greet_twice_then_fail
  /\ m_template (snd (Load Narrow (demo_template (Some greet_twice_then_fail))
                        ("" : basic_string Narrow) "next.j2tpl"))
     = ("" : basic_string Narrow)
  /\ snd (Render Narrow
            (snd (Load Narrow (demo_template (Some greet_twice_then_fail))
                    ("" : basic_string Narrow) "next.j2tpl"))
            ("" : basic_string Narrow) ∅)
     = ("Hello World" : basic_string Narrow).
Proof.
  edestruct (Load_failure_keeps_old_renderer Narrow
               (demo_template (Some greet_twice_then_fail)) greet_twice_then_fail
               ("" : basic_string Narrow) "next.j2tpl" ("" : basic_string Narrow) ∅)
    as (Hkept & Htext & Hout).
  - reflexivity.
  - vm_compute. discriminate.
  - split; [exact Hkept|]. split; [exact Htext | exact Hout].
Defined.

(** X14, at a fresh template on which two loads of the empty text
    failed. *)
Lemma Render_before_first_successful_Load_witness :
  exists error : ErrorInfoTpl.t NoFn Narrow,
    Render Narrow
      (Load_each Narrow (TemplateImpl_new Narrow None)
         [(("" : basic_string Narrow), ""); (("" : basic_string Narrow), "again")])
      ("kept" : basic_string Narrow) ∅
    = (Returns (Some error), ("kept" : basic_string Narrow))
    /\ ErrorInfoTpl.GetCode error = TemplateNotParsed.
Proof.
  apply (Render_before_first_successful_Load Narrow None
           [(("" : basic_string Narrow), ""); (("" : basic_string Narrow), "again")]).
  reflexivity.
Defined.

(** X16, at an integer and at a string used as template names on a
    template without environment. *)
Lemma LoadTemplate_value_EmptyValue_iff_witness :
  (exists error : ErrorInfoTpl.t NoFn Narrow,
      LoadTemplate_value Narrow (demo_template None) (VInt64 7%Z)
      = TplOrErrorNarrow (inr error)
      /\ ErrorInfoTpl.GetCode error = InvalidTemplateName
      /\ ErrorInfoTpl.GetErrorLocation error = mkSourceLocation "hello.j2tpl" 1 1
      /\ ErrorInfoTpl.GetLocationDescr error = ("" : basic_string Narrow)
      /\ ErrorInfoTpl.GetExtraParams error = [VInt64 7%Z])
  /\ LoadTemplate_value Narrow (demo_template None) (VString "base")
     = LoadTemplate Narrow (demo_template None) "base"
  /\ LoadTemplate_value Narrow (demo_template None) (VString "base")
     = TplEmptyValue mkEmptyValue.
Proof.
  split; [|split].
  - exact (proj1 (proj2 (LoadTemplate_value_EmptyValue_iff Narrow (demo_template None)
                           (VInt64 7%Z) mkEmptyValue)) eq_refl).
  - exact (proj2 (proj2 (LoadTemplate_value_EmptyValue_iff Narrow (demo_template None)
                           (VString "base") mkEmptyValue)) "base" eq_refl).
  - apply (proj1 (LoadTemplate_value_EmptyValue_iff Narrow (demo_template None)
                    (VString "base") mkEmptyValue)).
    split; [exists "base"|]; reflexivity.
Defined.

(** X19, at a renderer that raised [UndefinedValue] through the
    callback. *)
Lemma Render_returns_engine_error_witness :
  fst (Render Narrow (demo_template (Some fail_with_engine_error))
         ("" : basic_string Narrow) ∅)
  = Returns (Some demo_narrow_error).
Proof.
  apply (Render_returns_engine_error Narrow
           (demo_template (Some fail_with_engine_error)) fail_with_engine_error
           ("" : basic_string Narrow) ∅
           [CallWriteBuffer ("a" : basic_string Narrow)] UndefinedValue [VString "x"]).
  - reflexivity.
  - reflexivity.
Defined.

(** X20, at the wide payload and the one-unit-per-character transcoder. *)
Lemma ErrorConverter_round_trip_witness :
  ErrorConverter_Convert Wide Narrow (ErrorConverter_Convert Narrow Wide demo_wide_error)
  = demo_wide_error.
Proof.
  apply (ErrorConverter_round_trip Narrow Wide demo_wide_error). reflexivity.
Defined.

(** The call forms of a callable with the descriptors [a] (mandatory) and
    [b] (default 7): [f(1)], [f(a=1)] and [f()]. *)
Example call_forms :
  (@args NoFn <$> assemble_call_params (argsInfo demo_callable) [VInt64 1%Z] ∅ Value_default)
  = Some (<[ "a" := VInt64 1%Z ]> (<[ "b" := VInt64 7%Z ]> ∅))
  /\ (@args NoFn <$> assemble_call_params (argsInfo demo_callable) []
                 (<[ "a" := VInt64 1%Z ]> ∅) Value_default)
     = Some (<[ "a" := VInt64 1%Z ]> (<[ "b" := VInt64 7%Z ]> ∅))
  /\ UserCallable_invoke demo_callable [] ∅ Value_default = CallMissingArgument.
Proof. repeat split; vm_compute; reflexivity. Qed.

(** C8, at the call [f(1, 2, 3, x=4)] of that callable. *)
Lemma call_params_bundle_shape_witness :
  exists bundle : UserCallableParams NoFn,
    assemble_call_params (argsInfo demo_callable) demo_positional demo_named
      Value_default
    = Some bundle
    /\ UserCallable_invoke demo_callable demo_positional demo_named Value_default
       = CallReturns (VInt64 1%Z)
    /\ UserCallableParams_index bundle "b" = VInt64 2%Z
    /\ extraPosArgs bundle = VValuesList [VInt64 3%Z]
    /\ isList (extraPosArgs bundle) = true
    /\ isMap (extraKwArgs bundle) = true
    /\ context bundle = Value_default.
Proof.
  destruct (assemble_call_params (argsInfo demo_callable) demo_positional demo_named
              Value_default) as [bundle|] eqn:H;
    [|vm_compute in H; discriminate H].
  exists bundle. split; [reflexivity|].
  destruct (call_params_bundle_shape demo_callable demo_positional demo_named
              Value_default bundle H)
    as (Hcall & _ & Hpos & _ & Hextra & HisList & _ & HisMap & Hscope).
  split; [|split; [|split; [|split; [|split]]]].
  - rewrite Hcall. f_equal.
    apply (Hpos 0 (mkArgInfo "a" true Value_default) (VInt64 1%Z));
      [reflexivity | reflexivity |].
    simpl. intros [E|[]]. discriminate E.
  - apply (Hpos 1 (mkArgInfo "b" false (VInt64 7%Z)) (VInt64 2%Z));
      [reflexivity | reflexivity |].
    simpl. intros [].
  - rewrite Hextra. reflexivity.
  - exact HisList.
  - exact HisMap.
  - exact Hscope.
Defined.
